(** * DefiLlama client: request building, error surfacing and response decoding

    A shallow embedding of [src/defillama/client.py] and
    [src/defillama/models.py].

    - Python objects coming out of [res.json()] are values of [JSON];
    - the pydantic annotations of [models.py] are terms of [Ann], written
      field by field as the classes are, and one interpreter [validate]
      gives them pydantic's meaning;
    - a client method is a program of [Prog]: it issues HTTP requests on
      [self.client] or [self.async_client] and returns a value or raises. *)

From Stdlib Require Import String Ascii List ZArith QArith Bool Lia.
From Stdlib Require Import DecimalString.
Import ListNotations.
Open Scope string_scope.
Open Scope Z_scope.

Set Implicit Arguments.
Set Warnings "-register-all".

(** ** Python values *)

(** What [json.loads] returns: [None], [bool], [int], [float], [str], [list]
    and [dict] with string keys.  A dict is the list of its items in
    insertion order; a float is the rational it denotes (the client never
    computes with floats, it only carries them). *)
Inductive JSON : Type :=
| JNull
| JBool (b : bool)
| JInt (n : Z)
| JFloat (x : Q)
| JStr (s : string)
| JArr (items : list JSON)
| JObj (members : list (string * JSON)).

(** Types that pydantic validates with parsers of its own, which the client
    only names. *)
Inductive ExtType := Datetime | AnyHttpUrl.

(** Validated values: the attributes of model instances and the elements of
    the containers built by pydantic. *)
Inductive PyVal : Type :=
| VNone
| VBool (b : bool)
| VInt (n : Z)
| VFloat (x : Q)
| VStr (s : string)
| VExt (t : ExtType) (repr : string)
| VRaw (j : JSON)
| VList (items : list PyVal)
| VDict (members : list (string * PyVal))
| VModel (cls : string) (attrs : list (string * PyVal)).

(** ** Dictionaries as item lists *)

Section Dict.
Variable V : Type.

(** [d.get(k)] / [k in d] / [d[k]]. *)
Fixpoint dict_get (k : string) (d : list (string * V)) : option V :=
  match d with
  | [] => None
  | (k', v) :: d' => if String.eqb k k' then Some v else dict_get k d'
  end.

(** [d[k] = v]: replaces the value of an existing key in place, appends a
    new key at the end. *)
Fixpoint dict_set (k : string) (v : V) (d : list (string * V)) : list (string * V) :=
  match d with
  | [] => [(k, v)]
  | (k', v') :: d' =>
      if String.eqb k k' then (k', v) :: d' else (k', v') :: dict_set k v d'
  end.

Definition dict_keys (d : list (string * V)) : list string := map fst d.
End Dict.

(** ** Strings *)

(** [str(n)] for an [int]. *)
Definition str_of_int (n : Z) : string := NilZero.string_of_int (Z.to_int n).

Definition lower_ascii (c : ascii) : ascii :=
  let n := nat_of_ascii c in
  if andb (Nat.leb 65 n) (Nat.leb n 90) then ascii_of_nat (n + 32) else c.

(** Lowering of the ASCII letters A..Z, every other byte unchanged: what
    [s.lower()] does to ASCII text, and the case folding of pydantic's
    comparison of boolean words. *)
Fixpoint lower (s : string) : string :=
  match s with
  | EmptyString => EmptyString
  | String c s' => String (lower_ascii c) (lower s')
  end.

(** Text made of ASCII characters only. *)
Fixpoint is_ascii (s : string) : bool :=
  match s with
  | EmptyString => true
  | String c s' => andb (Nat.ltb (nat_of_ascii c) 128) (is_ascii s')
  end.

(** [sep.join(l)]. *)
Definition join (sep : string) (l : list string) : string := String.concat sep l.

(** Truthiness of the optional arguments the client tests with [if x:]. *)
Definition truthy_str (o : option string) : option string :=
  match o with
  | Some s => if String.eqb s "" then None else Some s
  | None => None
  end.

Definition truthy_int (o : option Z) : option Z :=
  match o with
  | Some n => if Z.eqb n 0 then None else Some n
  | None => None
  end.

(** ** Validation errors *)

(** One line of a pydantic [ValidationError]: where, and which rule failed
    (pydantic's error [type] code). *)
Inductive LocItem := Key (k : string) | Index (i : nat).

Record ErrorDetail := { loc : list LocItem; etype : string }.

Definition Validated := (PyVal + list ErrorDetail)%type.

Definition invalid (code : string) : Validated :=
  inr [{| loc := []; etype := code |}].

Definition under (i : LocItem) (e : ErrorDetail) : ErrorDetail :=
  {| loc := i :: loc e; etype := etype e |}.

Definition errors_of (i : LocItem) (r : Validated) : list ErrorDetail :=
  match r with
  | inl _ => []
  | inr es => map (under i) es
  end.

(** Containers report the errors of all their elements, each under its index
    or key; they succeed when there is none. *)
Fixpoint list_errors (i : nat) (rs : list Validated) : list ErrorDetail :=
  match rs with
  | [] => []
  | r :: rs' => (errors_of (Index i) r ++ list_errors (S i) rs')%list
  end.

Fixpoint list_values (rs : list Validated) : option (list PyVal) :=
  match rs with
  | [] => Some []
  | inl v :: rs' => option_map (cons v) (list_values rs')
  | inr _ :: _ => None
  end.

Definition collect_list (rs : list Validated) : Validated :=
  match list_values rs with
  | Some vs => inl (VList vs)
  | None => inr (list_errors 0 rs)
  end.

Fixpoint item_errors (rs : list (string * Validated)) : list ErrorDetail :=
  match rs with
  | [] => []
  | (k, r) :: rs' => (errors_of (Key k) r ++ item_errors rs')%list
  end.

Fixpoint item_values (rs : list (string * Validated)) : option (list (string * PyVal)) :=
  match rs with
  | [] => Some []
  | (k, inl v) :: rs' => option_map (cons (k, v)) (item_values rs')
  | (_, inr _) :: _ => None
  end.

Definition collect_items (wrap : list (string * PyVal) -> PyVal)
    (rs : list (string * Validated)) : Validated :=
  match item_values rs with
  | Some kvs => inl (wrap kvs)
  | None => inr (item_errors rs)
  end.

(** ** Annotations *)

Inductive FieldDefault := Required | Default (v : PyVal).

Record FieldOf (A : Type) := Field { fname : string; fann : A; fdefault : FieldDefault }.

(** The type annotations used in [models.py]. *)
Inductive Ann : Type :=
| AStr | AInt | AFloat | ABool | AAny
| AExt (t : ExtType)
| AOptional (a : Ann)
| AList (a : Ann)
| ADict (a : Ann)                       (* Dict[str, a] *)
| AUnion (a b : Ann)
| AModel (cls : string) (fields : list (FieldOf Ann)).

(** How error locations name the member of a union. *)
Fixpoint ann_tag (a : Ann) : string :=
  match a with
  | AStr => "str" | AInt => "int" | AFloat => "float" | ABool => "bool"
  | AAny => "any"
  | AExt Datetime => "datetime"
  | AExt AnyHttpUrl => "url"
  | AOptional a' => "nullable[" ++ ann_tag a' ++ "]"
  | AList a' => "list[" ++ ann_tag a' ++ "]"
  | ADict a' => "dict[str," ++ ann_tag a' ++ "]"
  | AUnion a' b' => "union[" ++ ann_tag a' ++ "," ++ ann_tag b' ++ "]"
  | AModel cls _ => cls
  end.

(** ** HTTP requests and responses *)

(** A value of the [params] dictionary handed to httpx. *)
Inductive ParamValue := PStr (s : string) | PInt (n : Z) | PBool (b : bool).

Definition Params := list (string * ParamValue).

(** The arguments of [client.request(method=, url=, params=)]; [params] is
    [None] when the method passes none. *)
Record HttpRequest := {
  method : string;
  url : string;
  params : option Params
}.

(** The body of a response as [res.json()] sees it: the value its text
    denotes, or text that is not JSON. *)
Inductive Body := JsonBody (v : JSON) | TextBody (raw : string).

Record Response := { status_code : Z; body : Body }.

(** [Response.is_success]: a 2xx status. *)
Definition is_success (res : Response) : bool :=
  andb (Z.leb 200 (status_code res)) (Z.leb (status_code res) 299).

(** An exception of httpx's [RequestError] family, raised by
    [client.request] itself when no response arrives (connection, timeout,
    DNS, cancellation). *)
Record RequestError := { error_class : string; error_message : string }.

(** What the remote service and the transport give for one request. *)
Inductive Reply := Responded (res : Response) | Failed (e : RequestError).

(** ** The libraries under the client

    What [httpx] and [pydantic] compute on text, which the client uses but
    never inspects: the message of the [HTTPStatusError] built by
    [raise_for_status], pydantic's lax parsing of numbers written as strings,
    its datetime and URL validators, and the lowering of text that is not
    ASCII. *)
Record Library := {
  str_as_int : string -> option Z;
  str_as_float : string -> option Q;
  validate_ext : ExtType -> bool -> JSON -> option string;
  status_error_str : HttpRequest -> Response -> string;
  unicode_lower : string -> string
}.

(** [s.lower()]: ASCII text is lowered letter by letter; text with other
    characters is lowered by Python's Unicode tables, [unicode_lower], and
    since their result has no ASCII capital left, lowering the ASCII letters
    once more changes nothing in it. *)
Definition str_lower (lib : Library) (s : string) : string :=
  if is_ascii s then lower s else lower (unicode_lower lib s).

(** ** pydantic's validators, on values read from JSON *)

Section Validators.
Variable lib : Library.

(** [str]: nothing but a [str] is a valid string. *)
Definition validate_str (v : JSON) : Validated :=
  match v with
  | JStr s => inl (VStr s)
  | _ => invalid "string_type"
  end.

(** [float(n)] for an [int], as the integer the result equals: [n] itself
    up to 2^53, beyond that the nearest double, a tie going to the even
    mantissa; [None] when the nearest double would be 2^1024 or more and
    Python raises [OverflowError]. *)
Definition float_of_int (n : Z) : option Z :=
  let a := Z.abs n in
  if Z.leb a (2 ^ 53) then Some n else
  let e := Z.log2 a - 52 in
  let q := Z.shiftr a e in
  let r := a - Z.shiftl q e in
  let half := Z.shiftl 1 (e - 1) in
  let m := if orb (Z.ltb half r) (andb (Z.eqb r half) (Z.odd q)) then q + 1 else q in
  let v := Z.shiftl m e in
  if Z.leb (2 ^ 1024) v then None else Some (Z.sgn n * v).

(** The integer a float equals, or the code of the error: a float with a
    fractional part is no integer, and a whole float is converted only
    strictly between -2^63 and 2^63. *)
Definition float_as_int (x : Q) : Z + string :=
  let r := Qred x in
  if Pos.eqb (Qden r) 1 then
    if andb (Z.ltb (- 2 ^ 63) (Qnum r)) (Z.ltb (Qnum r) (2 ^ 63))
    then inl (Qnum r)
    else inr "int_parsing_size"
  else inr "int_from_float".

(** [int]: an [int] as it is; outside strict mode also a [bool], a float
    without fractional part and a numeric string. *)
Definition validate_int (strict : bool) (v : JSON) : Validated :=
  match v with
  | JInt n => inl (VInt n)
  | JBool b => if strict then invalid "int_type" else inl (VInt (if b then 1 else 0))
  | JFloat x =>
      if strict then invalid "int_type" else
      match float_as_int x with
      | inl n => inl (VInt n)
      | inr code => invalid code
      end
  | JStr s =>
      if strict then invalid "int_type" else
      match str_as_int lib s with
      | Some n => inl (VInt n)
      | None => invalid "int_parsing"
      end
  | _ => invalid "int_type"
  end.

(** [float]: a [float], or an [int] that Python converts to one; outside
    strict mode also a [bool] and a numeric string. *)
Definition validate_float (strict : bool) (v : JSON) : Validated :=
  match v with
  | JFloat x => inl (VFloat x)
  | JInt n =>
      match float_of_int n with
      | Some x => inl (VFloat (inject_Z x))
      | None => invalid "float_type"
      end
  | JBool b => if strict then invalid "float_type" else inl (VFloat (inject_Z (if b then 1 else 0)))
  | JStr s =>
      if strict then invalid "float_type" else
      match str_as_float lib s with
      | Some x => inl (VFloat x)
      | None => invalid "float_parsing"
      end
  | _ => invalid "float_type"
  end.

Definition str_as_bool (s : string) : option bool :=
  let s := lower s in
  if existsb (String.eqb s) ["0"; "off"; "f"; "false"; "n"; "no"] then Some false
  else if existsb (String.eqb s) ["1"; "on"; "t"; "true"; "y"; "yes"] then Some true
  else None.

(** [bool]: a [bool]; outside strict mode also 0, 1 and the usual words. *)
Definition validate_bool (strict : bool) (v : JSON) : Validated :=
  match v with
  | JBool b => inl (VBool b)
  | JInt n =>
      if strict then invalid "bool_type" else
      if Z.eqb n 0 then inl (VBool false)
      else if Z.eqb n 1 then inl (VBool true)
      else invalid "bool_parsing"
  | JFloat x =>
      if strict then invalid "bool_type" else
      if Qeq_bool x 0 then inl (VBool false)
      else if Qeq_bool x 1 then inl (VBool true)
      else invalid "bool_parsing"
  | JStr s =>
      if strict then invalid "bool_type" else
      match str_as_bool s with
      | Some b => inl (VBool b)
      | None => invalid "bool_parsing"
      end
  | _ => invalid "bool_type"
  end.

Definition ext_error (t : ExtType) : string :=
  match t with Datetime => "datetime_type" | AnyHttpUrl => "url_type" end.

(** The result of one field of a model: the value validated under the
    field's name, or the default of a field that is absent. *)
Definition field_result (check : JSON -> Validated)
    (members : list (string * JSON)) (name : string) (d : FieldDefault)
    : string * Validated :=
  (name,
   match dict_get name members with
   | Some v => check v
   | None =>
       match d with
       | Required => invalid "missing"
       | Default dv => inl dv
       end
   end).

Definition tagged (a : Ann) (r : Validated) : list ErrorDetail :=
  errors_of (Key (ann_tag a)) r.

(** Validation of a value against an annotation.  A union is tried member
    by member in strict mode first and then, unless the union itself is
    validated strictly, in lax mode: the first member that accepts the
    value gives the result. *)
Fixpoint validate (strict : bool) (a : Ann) (v : JSON) {struct a} : Validated :=
  match a with
  | AStr => validate_str v
  | AInt => validate_int strict v
  | AFloat => validate_float strict v
  | ABool => validate_bool strict v
  | AAny => inl (VRaw v)
  | AExt t =>
      match validate_ext lib t strict v with
      | Some r => inl (VExt t r)
      | None => invalid (ext_error t)
      end
  | AOptional a' =>
      match v with
      | JNull => inl VNone
      | _ => validate strict a' v
      end
  | AList a' =>
      match v with
      | JArr items => collect_list (map (validate strict a') items)
      | _ => invalid "list_type"
      end
  | ADict a' =>
      match v with
      | JObj members =>
          collect_items VDict
            (map (fun kv => (fst kv, validate strict a' (snd kv))) members)
      | _ => invalid "dict_type"
      end
  | AUnion a1 a2 =>
      match validate true a1 v with
      | inl r => inl r
      | inr e1 =>
          match validate true a2 v with
          | inl r => inl r
          | inr e2 =>
              if strict then inr (tagged a1 (inr e1) ++ tagged a2 (inr e2))%list else
              match validate false a1 v with
              | inl r => inl r
              | inr e1' =>
                  match validate false a2 v with
                  | inl r => inl r
                  | inr e2' => inr (tagged a1 (inr e1') ++ tagged a2 (inr e2'))%list
                  end
              end
          end
      end
  | AModel cls fields =>
      match v with
      | JObj members =>
          collect_items (VModel cls)
            ((fix each (fs : list (FieldOf Ann)) : list (string * Validated) :=
                match fs with
                | [] => []
                | Field name a' d :: fs' =>
                    field_result (validate strict a') members name d :: each fs'
                end) fields)
      | _ => invalid "model_type"
      end
  end.
End Validators.

(** ** models.py *)

(** A field without default, and a field [Optional[a] = None]. *)
Definition required (name : string) (a : Ann) : FieldOf Ann := Field name a Required.
Definition optional (name : string) (a : Ann) : FieldOf Ann :=
  Field name (AOptional a) (Default VNone).

(** A subclass keeps the fields of its base in their order; a field it
    declares again takes the new annotation at the old place, a new field
    goes to the end. *)
Fixpoint declare (f : FieldOf Ann) (fs : list (FieldOf Ann)) : list (FieldOf Ann) :=
  match fs with
  | [] => [f]
  | g :: fs' => if String.eqb (fname f) (fname g) then f :: fs' else g :: declare f fs'
  end.

Definition subclass (base own : list (FieldOf Ann)) : list (FieldOf Ann) :=
  fold_left (fun fs f => declare f fs) own base.

Definition model_fields (m : Ann) : list (FieldOf Ann) :=
  match m with
  | AModel _ fs => fs
  | _ => []
  end.

Definition field_ann (m : Ann) (name : string) : option Ann :=
  option_map (@fann Ann) (find (fun f => String.eqb name (fname f)) (model_fields m)).

Module models.

Definition Protocol : Ann := AModel "Protocol" [
  required "id" AStr;
  required "name" AStr;
  optional "address" AStr;
  required "symbol" AStr;
  optional "url" (AUnion (AExt AnyHttpUrl) AStr);
  optional "description" AStr;
  optional "chain" AStr;
  optional "logo" AStr;
  required "chains" (AList AStr);
  optional "gecko_id" AStr;
  optional "cmcId" AStr;
  required "category" AStr;
  optional "tvl" AFloat;
  required "chainTvls" (ADict AFloat);
  optional "change_1h" AFloat;
  optional "change_1d" AFloat;
  optional "change_7d" AFloat ].

Definition Protocols : Ann := AList Protocol.

Definition Coin : Ann := AModel "Coin" [
  optional "decimals" AInt;
  optional "price" AFloat;
  optional "symbol" AStr;
  optional "timestamp" AInt;
  optional "confidence" AFloat ].

Definition CoinPrice : Ann := AModel "CoinPrice" [ required "coins" (ADict Coin) ].

Definition HistoricalPrice : Ann := AModel "HistoricalPrice" [
  required "timestamp" AInt;
  required "price" AFloat;
  optional "confidence" AFloat ].

Definition CoinHistoricalData : Ann := AModel "CoinHistoricalData" [
  required "symbol" AStr;
  required "prices" (AList HistoricalPrice) ].

Definition BatchHistoricalPrices : Ann :=
  AModel "BatchHistoricalPrices" [ required "coins" (ADict CoinHistoricalData) ].

Definition CoinChartData : Ann := AModel "CoinChartData" [
  optional "decimals" AInt;
  optional "confidence" AFloat;
  required "prices" (AList HistoricalPrice);
  required "symbol" AStr ].

Definition PriceChart : Ann := AModel "PriceChart" [ required "coins" (ADict CoinChartData) ].

Definition PercentageChange : Ann :=
  AModel "PercentageChange" [ required "coins" (ADict AFloat) ].

Definition Block : Ann := AModel "Block" [
  required "height" AInt;
  required "timestamp" AInt ].

Definition HistoricalTvl : Ann := AModel "HistoricalTvl" [
  required "date" (AExt Datetime);
  required "tvl" AFloat ].

Definition HistoricalTvls : Ann := AList HistoricalTvl.

Definition TokenHistory : Ann := AModel "TokenHistory" [
  required "date" AInt;
  required "tokens" (ADict AFloat) ].

Definition ChainTvlDetails : Ann := AModel "ChainTvlDetails" [
  required "tvl" (AList HistoricalTvl);
  optional "tokens" (AList TokenHistory);
  optional "tokensInUsd" (AList TokenHistory) ].

Definition ProtocolHistoricalTvl : Ann := AModel "ProtocolHistoricalTvl" [
  required "date" (AExt Datetime);
  required "totalLiquidityUSD" AFloat ].

Definition ProtocolChainTvlDetails : Ann := AModel "ProtocolChainTvlDetails" [
  Field "tvl" (AList ProtocolHistoricalTvl) (Default (VList []));
  optional "tokens" (AList TokenHistory);
  optional "tokensInUsd" (AList TokenHistory) ].

Definition ProtocolDetails : Ann := AModel "ProtocolDetails"
  (subclass (model_fields Protocol) [
    Field "tvl" (AList ProtocolHistoricalTvl) (Default (VList []));
    optional "tokens" (AList TokenHistory);
    optional "tokensInUsd" (AList TokenHistory);
    required "chainTvls" (ADict ProtocolChainTvlDetails) ]).

Definition Chain : Ann := AModel "Chain" [
  optional "gecko_id" AStr;
  optional "tvl" AFloat;
  optional "tokenSymbol" AStr;
  optional "cmcId" AStr;
  required "name" AStr;
  optional "chainId" AInt ].

Definition Chains : Ann := AList Chain.

Definition Stablecoin : Ann := AModel "Stablecoin" [
  required "id" AStr;
  required "name" AStr;
  required "symbol" AStr;
  optional "gecko_id" AStr;
  required "pegType" AStr;
  optional "priceSource" AStr;
  required "pegMechanism" AStr;
  required "circulating" (ADict AFloat);
  optional "circulatingPrevDay" (AUnion (ADict AFloat) AInt);
  optional "circulatingPrevWeek" (AUnion (ADict AFloat) AInt);
  optional "circulatingPrevMonth" (AUnion (ADict AFloat) AInt);
  optional "price" AFloat;
  optional "chainCirculating" (ADict (ADict (AUnion (ADict AFloat) AInt))) ].

Definition Stablecoins : Ann := AList Stablecoin.

Definition StablecoinChart : Ann := AModel "StablecoinChart" [
  required "date" AStr;
  required "totalCirculating" (ADict AFloat);
  required "totalCirculatingUSD" (ADict AFloat) ].

Definition StablecoinCharts : Ann := AList StablecoinChart.

Definition StablecoinHistorical : Ann := AModel "StablecoinHistorical" [
  required "id" AStr;
  required "name" AStr;
  optional "address" AStr;
  required "symbol" AStr;
  optional "url" AStr;
  optional "description" AStr;
  optional "mintRedeemDescription" AStr;
  optional "onCoinGecko" AStr;
  optional "gecko_id" AStr;
  optional "cmcId" AStr;
  required "pegType" AStr;
  required "pegMechanism" AStr;
  optional "priceSource" AStr;
  optional "auditLinks" (AList AStr);
  optional "twitter" AStr;
  optional "wiki" AStr;
  optional "chainBalances" (ADict (ADict AAny)) ].

Definition StablecoinChainData : Ann := AModel "StablecoinChainData" [
  optional "gecko_id" AStr;
  required "totalCirculatingUSD" (ADict AFloat);
  optional "tokenSymbol" AStr;
  required "name" AStr ].

Definition StablecoinChains : Ann := AList StablecoinChainData.

Definition StablecoinPrice : Ann := AModel "StablecoinPrice" [
  required "id" AStr;
  required "price" AFloat;
  required "timestamp" AInt ].

Definition StablecoinPrices : Ann := AList StablecoinPrice.

Definition Pool : Ann := AModel "Pool" [
  required "chain" AStr;
  required "project" AStr;
  required "symbol" AStr;
  required "tvlUsd" AFloat;
  optional "apyBase" AFloat;
  optional "apyReward" AFloat;
  required "apy" AFloat;
  optional "rewardTokens" (AList (AOptional AStr));
  required "pool" AStr;
  optional "apyPct1D" AFloat;
  optional "apyPct7D" AFloat;
  optional "apyPct30D" AFloat;
  required "stablecoin" ABool;
  optional "ilRisk" AStr;
  optional "exposure" AStr;
  optional "predictions" (ADict AAny) ].

Definition Pools : Ann := AList Pool.

Definition PoolChart : Ann := AModel "PoolChart" [
  required "timestamp" AInt;
  required "apy" AFloat;
  required "tvlUsd" AFloat ].

Definition PoolCharts : Ann := AList PoolChart.

Definition Dex : Ann := AModel "Dex" [
  required "name" AStr;
  required "category" AStr;
  required "totalVolume" AFloat;
  optional "dailyVolume" AFloat;
  optional "monthlyVolume" AFloat;
  optional "chains" (AList AStr);
  optional "methodologyURL" AStr;
  optional "methodology" (ADict AStr);
  optional "allChains" (AList AStr);
  optional "totalDataChart" (AList (AList (AUnion AInt AFloat)));
  optional "totalDataChartBreakdown" (AList (AList (AUnion AInt AFloat))) ].

Definition DexOverview : Ann := AModel "DexOverview" [
  required "totalDataChart" (AList (AList (AUnion AInt AFloat)));
  required "totalDataChartBreakdown" (AList (AList (AUnion AInt AFloat)));
  optional "breakdown24h" (ADict AAny);
  optional "breakdown30d" (ADict AAny);
  optional "chain" AStr;
  required "allChains" (AList AStr) ].

Definition Fee : Ann := AModel "Fee" [
  required "name" AStr;
  required "category" AStr;
  optional "dailyFees" AFloat;
  optional "dailyRevenue" AFloat;
  required "totalFees" AFloat;
  required "totalRevenue" AFloat;
  optional "chains" (AList AStr);
  optional "methodologyURL" AStr;
  optional "methodology" (ADict AStr);
  optional "allChains" (AList AStr);
  optional "totalDataChart" (AList (AList (AUnion AInt AFloat)));
  optional "totalDataChartBreakdown" (AList (AList (AUnion AInt AFloat))) ].

Definition FeeOverview : Ann := AModel "FeeOverview" [
  required "totalDataChart" (AList (AList (AUnion AInt AFloat)));
  required "totalDataChartBreakdown" (AList (AList (AUnion AInt AFloat)));
  optional "breakdown24h" (ADict AAny);
  optional "breakdown30d" (ADict AAny);
  optional "chain" AStr;
  required "allChains" (AList AStr) ].

End models.

(** ** Exceptions *)

(** The exceptions that leave the client.  [ValueError] is the builtin
    class, with the exception it was raised [from] as its cause;
    [JSONDecodeError] and pydantic's [ValidationError] are subclasses of it,
    httpx's exceptions are not. *)
Inductive PyExc : Type :=
| HttpxRequestError (e : RequestError)
| HTTPStatusError (message : string) (request : HttpRequest) (response : Response)
| JSONDecodeError (doc : string)
| ValidationError (title : string) (errors : list ErrorDetail)
| ValueError (message : string) (cause : option PyExc).

(** ** Programs that talk to the network *)

(** The two httpx clients of a [DefiLlama] object. *)
Inductive Channel := client | async_client.

(** A method body: it returns, raises, or sends a request on one of the
    clients and goes on with the reply. *)
Inductive Prog (A : Type) : Type :=
| Return (a : A)
| Raise (e : PyExc)
| Send (c : Channel) (rq : HttpRequest) (k : Reply -> Prog A).

Arguments Raise {A} e.

Fixpoint bind {A B} (p : Prog A) (f : A -> Prog B) : Prog B :=
  match p with
  | Return a => f a
  | Raise e => Raise e
  | Send c rq k => Send c rq (fun r => bind (k r) f)
  end.

Declare Scope prog_scope.
Delimit Scope prog_scope with prog.
Notation "x <- p ;; q" := (bind p (fun x => q))
  (at level 61, p at next level, right associativity) : prog_scope.
Notation "p ;; q" := (bind p (fun _ => q))
  (at level 61, right associativity) : prog_scope.
Open Scope prog_scope.

(** [try: p except <handled> as e: ...]: [handler] answers [None] for the
    exceptions the clause does not name. *)
Fixpoint try_except {A} (p : Prog A) (handler : PyExc -> option (Prog A)) : Prog A :=
  match p with
  | Return a => Return a
  | Raise e =>
      match handler e with
      | Some q => q
      | None => Raise e
      end
  | Send c rq k => Send c rq (fun r => try_except (k r) handler)
  end.

(** What the caller of a method observes. *)
Inductive Outcome (A : Type) : Type :=
| Returned (a : A)
| Raised (e : PyExc).

Arguments Raised {A} e.

(** The remote service behind the transports: the reply to each request on
    each client. *)
Definition Remote := Channel -> HttpRequest -> Reply.

Fixpoint run {A} (remote : Remote) (p : Prog A) : Outcome A :=
  match p with
  | Return a => Returned a
  | Raise e => Raised e
  | Send c rq k => run remote (k (remote c rq))
  end.

(** The requests a method sends, in order. *)
Fixpoint trace {A} (remote : Remote) (p : Prog A) : list (Channel * HttpRequest) :=
  match p with
  | Return _ | Raise _ => []
  | Send c rq k => (c, rq) :: trace remote (k (remote c rq))
  end.

(** ** client.py *)

Record DefiLlama := {
  BASE_URL : string;
  COINS_URL : string;
  STABLECOINS_URL : string;
  YIELDS_URL : string
}.

Definition __init__ : DefiLlama := {|
  BASE_URL := "https://api.llama.fi";
  COINS_URL := "https://coins.llama.fi";
  STABLECOINS_URL := "https://stablecoins.llama.fi";
  YIELDS_URL := "https://yields.llama.fi"
|}.

(** The value of a keyword argument with a default. *)
Definition or_default {A} (d : A) (given : option A) : A :=
  match given with
  | Some a => a
  | None => d
  end.

(** [repr] of a [str], of a list of [int] and [str] of a dict of them, which
    [get_batch_historical_prices] sends as the [coins] parameter. *)
Definition quote1 : ascii := ascii_of_nat 39.
Definition quote2 : ascii := ascii_of_nat 34.
Definition backslash : ascii := ascii_of_nat 92.

Fixpoint contains_char (c : ascii) (s : string) : bool :=
  match s with
  | EmptyString => false
  | String c' s' => orb (Ascii.eqb c c') (contains_char c s')
  end.

Definition hex_digit (n : nat) : ascii :=
  if Nat.ltb n 10 then ascii_of_nat (48 + n) else ascii_of_nat (87 + n).

Definition repr_char (q c : ascii) : string :=
  let n := nat_of_ascii c in
  if Ascii.eqb c backslash then String backslash (String backslash "")
  else if Ascii.eqb c q then String backslash (String q "")
  else if Nat.eqb n 10 then String backslash "n"
  else if Nat.eqb n 13 then String backslash "r"
  else if Nat.eqb n 9 then String backslash "t"
  else if orb (Nat.ltb n 32) (Nat.eqb n 127) then
    String backslash (String "x" (String (hex_digit (n / 16)) (String (hex_digit (n mod 16)) "")))
  else String c "".

Fixpoint repr_chars (q : ascii) (s : string) : string :=
  match s with
  | EmptyString => EmptyString
  | String c s' => repr_char q c ++ repr_chars q s'
  end.

Definition repr_str (s : string) : string :=
  let q := if andb (contains_char quote1 s) (negb (contains_char quote2 s))
           then quote2 else quote1 in
  String q (repr_chars q s) ++ String q "".

Definition repr_ints (l : list Z) : string := "[" ++ join ", " (map str_of_int l) ++ "]".

Definition str_coins (coins : list (string * list Z)) : string :=
  "{" ++ join ", " (map (fun kv => repr_str (fst kv) ++ ": " ++ repr_ints (snd kv)) coins) ++ "}".

Section Client.
Variable lib : Library.

(** [client.request(...)]: the response, or the transport's exception. *)
Definition request (c : Channel) (rq : HttpRequest) : Prog Response :=
  Send c rq (fun r =>
    match r with
    | Responded res => Return res
    | Failed e => Raise (HttpxRequestError e)
    end).

(** [res.raise_for_status()]. *)
Definition raise_for_status (rq : HttpRequest) (res : Response) : Prog unit :=
  if is_success res then Return tt
  else Raise (HTTPStatusError (status_error_str lib rq res) rq res).

(** [res.json()]. *)
Definition json (res : Response) : Prog JSON :=
  match body res with
  | JsonBody v => Return v
  | TextBody raw => Raise (JSONDecodeError raw)
  end.

(** [except httpx.HTTPStatusError as e: raise ValueError(f"HTTP error: {e}") from e]. *)
Definition except_HTTPStatusError {A} (e : PyExc) : option (Prog A) :=
  match e with
  | HTTPStatusError m _ _ => Some (Raise (ValueError ("HTTP error: " ++ m) (Some e)))
  | _ => None
  end.

Definition request_on (c : Channel) (method url : string) (params : option Params)
    : Prog JSON :=
  let rq := {| method := method; url := url; params := params |} in
  try_except
    (res <- request c rq ;;
     raise_for_status rq res ;;
     json res)
    except_HTTPStatusError.

Definition _request := request_on client.
Definition _async_request := request_on async_client.

(** [Model.model_validate(data)] and [Adapter.validate_python(data)]. *)
Definition model_validate (m : Ann) (data : JSON) : Prog PyVal :=
  match validate lib false m data with
  | inl v => Return v
  | inr es => Raise (ValidationError (ann_tag m) es)
  end.

Definition validate_python := model_validate.

Variable self : DefiLlama.

Definition get_protocols : Prog PyVal :=
  data <- _request "GET" (BASE_URL self ++ "/protocols") None ;;
  validate_python models.Protocols data.

Definition get_protocols_async : Prog PyVal :=
  data <- _async_request "GET" (BASE_URL self ++ "/protocols") None ;;
  validate_python models.Protocols data.

Definition get_protocol (protocol_slug : string) : Prog PyVal :=
  data <- _request "GET" (BASE_URL self ++ "/protocol/" ++ protocol_slug) None ;;
  model_validate models.ProtocolDetails data.

Definition get_protocol_async (protocol_slug : string) : Prog PyVal :=
  data <- _async_request "GET" (BASE_URL self ++ "/protocol/" ++ protocol_slug) None ;;
  model_validate models.ProtocolDetails data.

Definition get_historical_chain_tvl (chain_slug : option string) : Prog PyVal :=
  let endpoint := "/v2/historicalChainTvl" in
  let endpoint :=
    match truthy_str chain_slug with
    | Some c => endpoint ++ "/" ++ c
    | None => endpoint
    end in
  data <- _request "GET" (BASE_URL self ++ endpoint) None ;;
  validate_python models.HistoricalTvls data.

Definition get_historical_chain_tvl_async (chain_slug : option string) : Prog PyVal :=
  let endpoint := "/v2/historicalChainTvl" in
  let endpoint :=
    match truthy_str chain_slug with
    | Some c => endpoint ++ "/" ++ c
    | None => endpoint
    end in
  data <- _async_request "GET" (BASE_URL self ++ endpoint) None ;;
  validate_python models.HistoricalTvls data.

Definition get_protocol_tvl (protocol_slug : string) : Prog JSON :=
  _request "GET" (BASE_URL self ++ "/tvl/" ++ protocol_slug) None.

Definition get_protocol_tvl_async (protocol_slug : string) : Prog JSON :=
  _async_request "GET" (BASE_URL self ++ "/tvl/" ++ protocol_slug) None.

Definition get_chains : Prog PyVal :=
  data <- _request "GET" (BASE_URL self ++ "/v2/chains") None ;;
  validate_python models.Chains data.

Definition get_chains_async : Prog PyVal :=
  data <- _async_request "GET" (BASE_URL self ++ "/v2/chains") None ;;
  validate_python models.Chains data.

Definition get_current_prices (coins : list string) (search_width : option string)
    : Prog PyVal :=
  let search_width := or_default "4h" search_width in
  let coins_str := join "," coins in
  let params := [("searchWidth", PStr search_width)] in
  data <- _request "GET" (COINS_URL self ++ "/prices/current/" ++ coins_str)
            (Some params) ;;
  model_validate models.CoinPrice data.

Definition get_current_prices_async (coins : list string) (search_width : option string)
    : Prog PyVal :=
  let search_width := or_default "4h" search_width in
  let coins_str := join "," coins in
  let params := [("searchWidth", PStr search_width)] in
  data <- _async_request "GET" (COINS_URL self ++ "/prices/current/" ++ coins_str)
            (Some params) ;;
  model_validate models.CoinPrice data.

Definition get_historical_prices (timestamp : Z) (coins : list string)
    (search_width : option string) : Prog PyVal :=
  let search_width := or_default "4h" search_width in
  let coins_str := join "," coins in
  let params := [("searchWidth", PStr search_width)] in
  data <- _request "GET"
            (COINS_URL self ++ "/prices/historical/" ++ str_of_int timestamp ++ "/" ++ coins_str)
            (Some params) ;;
  model_validate models.CoinPrice data.

Definition get_historical_prices_async (timestamp : Z) (coins : list string)
    (search_width : option string) : Prog PyVal :=
  let search_width := or_default "4h" search_width in
  let coins_str := join "," coins in
  let params := [("searchWidth", PStr search_width)] in
  data <- _async_request "GET"
            (COINS_URL self ++ "/prices/historical/" ++ str_of_int timestamp ++ "/" ++ coins_str)
            (Some params) ;;
  model_validate models.CoinPrice data.

(** [if x: params[key] = x], for a string and for an integer. *)
Definition set_if_str (key : string) (x : option string) (params : Params) : Params :=
  match truthy_str x with
  | Some s => dict_set key (PStr s) params
  | None => params
  end.

Definition set_if_int (key : string) (x : option Z) (params : Params) : Params :=
  match truthy_int x with
  | Some n => dict_set key (PInt n) params
  | None => params
  end.

Definition get_batch_historical_prices (coins : list (string * list Z))
    (search_width : option string) : Prog PyVal :=
  let params := [("coins", PStr (str_coins coins))] in
  let params := set_if_str "searchWidth" search_width params in
  data <- _request "GET" (COINS_URL self ++ "/batchHistorical") (Some params) ;;
  model_validate models.BatchHistoricalPrices data.

Definition get_batch_historical_prices_async (coins : list (string * list Z))
    (search_width : option string) : Prog PyVal :=
  let params := [("coins", PStr (str_coins coins))] in
  let params := set_if_str "searchWidth" search_width params in
  data <- _async_request "GET" (COINS_URL self ++ "/batchHistorical") (Some params) ;;
  model_validate models.BatchHistoricalPrices data.

Definition get_price_chart (coins : list string) (start end_ span : option Z)
    (period search_width : option string) : Prog PyVal :=
  let coins_str := join "," coins in
  let params := [] in
  let params := set_if_int "start" start params in
  let params := set_if_int "end" end_ params in
  let params := set_if_int "span" span params in
  let params := set_if_str "period" period params in
  let params := set_if_str "searchWidth" search_width params in
  data <- _request "GET" (COINS_URL self ++ "/chart/" ++ coins_str) (Some params) ;;
  model_validate models.PriceChart data.

Definition get_price_chart_async (coins : list string) (start end_ span : option Z)
    (period search_width : option string) : Prog PyVal :=
  let coins_str := join "," coins in
  let params := [] in
  let params := set_if_int "start" start params in
  let params := set_if_int "end" end_ params in
  let params := set_if_int "span" span params in
  let params := set_if_str "period" period params in
  let params := set_if_str "searchWidth" search_width params in
  data <- _async_request "GET" (COINS_URL self ++ "/chart/" ++ coins_str) (Some params) ;;
  model_validate models.PriceChart data.

Definition get_price_percentage_change (coins : list string) (timestamp : option Z)
    (look_forward : option bool) (period : option string) : Prog PyVal :=
  let look_forward := or_default false look_forward in
  let period := or_default "24h" period in
  let coins_str := join "," coins in
  let params := [("lookForward", PBool look_forward); ("period", PStr period)] in
  let params := set_if_int "timestamp" timestamp params in
  data <- _request "GET" (COINS_URL self ++ "/percentage/" ++ coins_str) (Some params) ;;
  model_validate models.PercentageChange data.

Definition get_price_percentage_change_async (coins : list string) (timestamp : option Z)
    (look_forward : option bool) (period : option string) : Prog PyVal :=
  let look_forward := or_default false look_forward in
  let period := or_default "24h" period in
  let coins_str := join "," coins in
  let params := [("lookForward", PBool look_forward); ("period", PStr period)] in
  let params := set_if_int "timestamp" timestamp params in
  data <- _async_request "GET" (COINS_URL self ++ "/percentage/" ++ coins_str) (Some params) ;;
  model_validate models.PercentageChange data.

Definition get_first_prices (coins : list string) : Prog PyVal :=
  let coins_str := join "," coins in
  data <- _request "GET" (COINS_URL self ++ "/prices/first/" ++ coins_str) None ;;
  model_validate models.CoinPrice data.

Definition get_first_prices_async (coins : list string) : Prog PyVal :=
  let coins_str := join "," coins in
  data <- _async_request "GET" (COINS_URL self ++ "/prices/first/" ++ coins_str) None ;;
  model_validate models.CoinPrice data.

Definition get_block (chain : string) (timestamp : Z) : Prog PyVal :=
  data <- _request "GET"
            (COINS_URL self ++ "/block/" ++ str_lower lib chain ++ "/" ++ str_of_int timestamp)
            None ;;
  model_validate models.Block data.

Definition get_block_async (chain : string) (timestamp : Z) : Prog PyVal :=
  data <- _async_request "GET"
            (COINS_URL self ++ "/block/" ++ chain ++ "/" ++ str_of_int timestamp)
            None ;;
  model_validate models.Block data.

(** [data[key] if isinstance(data, dict) and key in data else data]. *)
Definition unwrap (key : string) (data : JSON) : JSON :=
  match data with
  | JObj members =>
      match dict_get key members with
      | Some inner => inner
      | None => data
      end
  | _ => data
  end.

Definition get_stablecoins (include_prices : option bool) : Prog PyVal :=
  let include_prices := or_default true include_prices in
  let params := [("includePrices", PBool include_prices)] in
  data <- _request "GET" (STABLECOINS_URL self ++ "/stablecoins") (Some params) ;;
  validate_python models.Stablecoins (unwrap "peggedAssets" data).

Definition get_stablecoins_async (include_prices : option bool) : Prog PyVal :=
  let include_prices := or_default true include_prices in
  let params := [("includePrices", PBool include_prices)] in
  data <- _async_request "GET" (STABLECOINS_URL self ++ "/stablecoins") (Some params) ;;
  validate_python models.Stablecoins (unwrap "peggedAssets" data).

Definition get_stablecoin_charts (chain : option string) (stablecoin : option Z)
    : Prog PyVal :=
  let endpoint := "/stablecoincharts/all" in
  let endpoint :=
    match truthy_str chain with
    | Some c => "/stablecoincharts/" ++ c
    | None => endpoint
    end in
  let params := [] in
  let params := set_if_int "stablecoin" stablecoin params in
  data <- _request "GET" (STABLECOINS_URL self ++ endpoint) (Some params) ;;
  validate_python models.StablecoinCharts data.

Definition get_stablecoin_charts_async (chain : option string) (stablecoin : option Z)
    : Prog PyVal :=
  let endpoint := "/stablecoincharts/all" in
  let endpoint :=
    match truthy_str chain with
    | Some c => "/stablecoincharts/" ++ c
    | None => endpoint
    end in
  let params := [] in
  let params := set_if_int "stablecoin" stablecoin params in
  data <- _async_request "GET" (STABLECOINS_URL self ++ endpoint) (Some params) ;;
  validate_python models.StablecoinCharts data.

Definition get_stablecoin_historical (asset_id : Z) : Prog PyVal :=
  data <- _request "GET" (STABLECOINS_URL self ++ "/stablecoin/" ++ str_of_int asset_id) None ;;
  model_validate models.StablecoinHistorical data.

Definition get_stablecoin_historical_async (asset_id : Z) : Prog PyVal :=
  data <- _async_request "GET"
            (STABLECOINS_URL self ++ "/stablecoin/" ++ str_of_int asset_id) None ;;
  model_validate models.StablecoinHistorical data.

Definition get_stablecoin_chains : Prog PyVal :=
  data <- _request "GET" (STABLECOINS_URL self ++ "/stablecoinchains") None ;;
  validate_python models.StablecoinChains data.

Definition get_stablecoin_chains_async : Prog PyVal :=
  data <- _async_request "GET" (STABLECOINS_URL self ++ "/stablecoinchains") None ;;
  validate_python models.StablecoinChains data.

Definition get_stablecoin_prices : Prog PyVal :=
  data <- _request "GET" (STABLECOINS_URL self ++ "/stablecoinprices") None ;;
  validate_python models.StablecoinPrices data.

Definition get_stablecoin_prices_async : Prog PyVal :=
  data <- _async_request "GET" (STABLECOINS_URL self ++ "/stablecoinprices") None ;;
  validate_python models.StablecoinPrices data.

Definition get_pools : Prog PyVal :=
  data <- _request "GET" (YIELDS_URL self ++ "/pools") None ;;
  validate_python models.Pools (unwrap "data" data).

Definition get_pools_async : Prog PyVal :=
  data <- _async_request "GET" (YIELDS_URL self ++ "/pools") None ;;
  validate_python models.Pools (unwrap "data" data).

Definition get_pool_chart (pool_id : string) : Prog PyVal :=
  data <- _request "GET" (YIELDS_URL self ++ "/chart/" ++ pool_id) None ;;
  validate_python models.PoolCharts data.

Definition get_pool_chart_async (pool_id : string) : Prog PyVal :=
  data <- _async_request "GET" (YIELDS_URL self ++ "/chart/" ++ pool_id) None ;;
  validate_python models.PoolCharts data.

(** The endpoint of an overview, with the chain appended when one is given. *)
Definition with_chain (endpoint : string) (chain : option string) : string :=
  match truthy_str chain with
  | Some c => endpoint ++ "/" ++ c
  | None => endpoint
  end.

Definition get_dexs (chain : option string)
    (exclude_total_data_chart exclude_total_data_chart_breakdown : option bool)
    : Prog PyVal :=
  let exclude_total_data_chart := or_default true exclude_total_data_chart in
  let exclude_total_data_chart_breakdown :=
    or_default true exclude_total_data_chart_breakdown in
  let endpoint := with_chain "/overview/dexs" chain in
  let params := [("excludeTotalDataChart", PBool exclude_total_data_chart);
                 ("excludeTotalDataChartBreakdown", PBool exclude_total_data_chart_breakdown)] in
  data <- _request "GET" (BASE_URL self ++ endpoint) (Some params) ;;
  model_validate models.DexOverview data.

Definition get_dexs_async (chain : option string)
    (exclude_total_data_chart exclude_total_data_chart_breakdown : option bool)
    : Prog PyVal :=
  let exclude_total_data_chart := or_default true exclude_total_data_chart in
  let exclude_total_data_chart_breakdown :=
    or_default true exclude_total_data_chart_breakdown in
  let endpoint := with_chain "/overview/dexs" chain in
  let params := [("excludeTotalDataChart", PBool exclude_total_data_chart);
                 ("excludeTotalDataChartBreakdown", PBool exclude_total_data_chart_breakdown)] in
  data <- _async_request "GET" (BASE_URL self ++ endpoint) (Some params) ;;
  model_validate models.DexOverview data.

Definition get_dex_summary (protocol_slug : string)
    (exclude_total_data_chart exclude_total_data_chart_breakdown : option bool)
    : Prog PyVal :=
  let exclude_total_data_chart := or_default true exclude_total_data_chart in
  let exclude_total_data_chart_breakdown :=
    or_default true exclude_total_data_chart_breakdown in
  let params := [("excludeTotalDataChart", PBool exclude_total_data_chart);
                 ("excludeTotalDataChartBreakdown", PBool exclude_total_data_chart_breakdown)] in
  data <- _request "GET" (BASE_URL self ++ "/summary/dexs/" ++ protocol_slug) (Some params) ;;
  model_validate models.Dex data.

Definition get_dex_summary_async (protocol_slug : string)
    (exclude_total_data_chart exclude_total_data_chart_breakdown : option bool)
    : Prog PyVal :=
  let exclude_total_data_chart := or_default true exclude_total_data_chart in
  let exclude_total_data_chart_breakdown :=
    or_default true exclude_total_data_chart_breakdown in
  let params := [("excludeTotalDataChart", PBool exclude_total_data_chart);
                 ("excludeTotalDataChartBreakdown", PBool exclude_total_data_chart_breakdown)] in
  data <- _async_request "GET" (BASE_URL self ++ "/summary/dexs/" ++ protocol_slug)
            (Some params) ;;
  model_validate models.Dex data.

Definition get_options_dexs (chain : option string)
    (exclude_total_data_chart exclude_total_data_chart_breakdown : option bool)
    (data_type : option string) : Prog PyVal :=
  let exclude_total_data_chart := or_default true exclude_total_data_chart in
  let exclude_total_data_chart_breakdown :=
    or_default true exclude_total_data_chart_breakdown in
  let data_type := or_default "dailyNotionalVolume" data_type in
  let endpoint := with_chain "/overview/options" chain in
  let params := [("excludeTotalDataChart", PBool exclude_total_data_chart);
                 ("excludeTotalDataChartBreakdown", PBool exclude_total_data_chart_breakdown);
                 ("dataType", PStr data_type)] in
  data <- _request "GET" (BASE_URL self ++ endpoint) (Some params) ;;
  model_validate models.DexOverview data.

Definition get_options_dexs_async (chain : option string)
    (exclude_total_data_chart exclude_total_data_chart_breakdown : option bool)
    (data_type : option string) : Prog PyVal :=
  let exclude_total_data_chart := or_default true exclude_total_data_chart in
  let exclude_total_data_chart_breakdown :=
    or_default true exclude_total_data_chart_breakdown in
  let data_type := or_default "dailyNotionalVolume" data_type in
  let endpoint := with_chain "/overview/options" chain in
  let params := [("excludeTotalDataChart", PBool exclude_total_data_chart);
                 ("excludeTotalDataChartBreakdown", PBool exclude_total_data_chart_breakdown);
                 ("dataType", PStr data_type)] in
  data <- _async_request "GET" (BASE_URL self ++ endpoint) (Some params) ;;
  model_validate models.DexOverview data.

Definition get_options_dex_summary (protocol_slug : string) (data_type : option string)
    : Prog PyVal :=
  let data_type := or_default "dailyNotionalVolume" data_type in
  let params := [("dataType", PStr data_type)] in
  data <- _request "GET" (BASE_URL self ++ "/summary/options/" ++ protocol_slug)
            (Some params) ;;
  model_validate models.Dex data.

Definition get_options_dex_summary_async (protocol_slug : string)
    (data_type : option string) : Prog PyVal :=
  let data_type := or_default "dailyNotionalVolume" data_type in
  let params := [("dataType", PStr data_type)] in
  data <- _async_request "GET" (BASE_URL self ++ "/summary/options/" ++ protocol_slug)
            (Some params) ;;
  model_validate models.Dex data.

Definition get_fees (chain : option string)
    (exclude_total_data_chart exclude_total_data_chart_breakdown : option bool)
    (data_type : option string) : Prog PyVal :=
  let exclude_total_data_chart := or_default true exclude_total_data_chart in
  let exclude_total_data_chart_breakdown :=
    or_default true exclude_total_data_chart_breakdown in
  let data_type := or_default "dailyFees" data_type in
  let endpoint := with_chain "/overview/fees" chain in
  let params := [("excludeTotalDataChart", PBool exclude_total_data_chart);
                 ("excludeTotalDataChartBreakdown", PBool exclude_total_data_chart_breakdown);
                 ("dataType", PStr data_type)] in
  data <- _request "GET" (BASE_URL self ++ endpoint) (Some params) ;;
  model_validate models.FeeOverview data.

Definition get_fees_async (chain : option string)
    (exclude_total_data_chart exclude_total_data_chart_breakdown : option bool)
    (data_type : option string) : Prog PyVal :=
  let exclude_total_data_chart := or_default true exclude_total_data_chart in
  let exclude_total_data_chart_breakdown :=
    or_default true exclude_total_data_chart_breakdown in
  let data_type := or_default "dailyFees" data_type in
  let endpoint := with_chain "/overview/fees" chain in
  let params := [("excludeTotalDataChart", PBool exclude_total_data_chart);
                 ("excludeTotalDataChartBreakdown", PBool exclude_total_data_chart_breakdown);
                 ("dataType", PStr data_type)] in
  data <- _async_request "GET" (BASE_URL self ++ endpoint) (Some params) ;;
  model_validate models.FeeOverview data.

Definition get_fee_summary (protocol_slug : string) (data_type : option string)
    : Prog PyVal :=
  let data_type := or_default "dailyFees" data_type in
  let params := [("dataType", PStr data_type)] in
  data <- _request "GET" (BASE_URL self ++ "/summary/fees/" ++ protocol_slug) (Some params) ;;
  model_validate models.Fee data.

Definition get_fee_summary_async (protocol_slug : string) (data_type : option string)
    : Prog PyVal :=
  let data_type := or_default "dailyFees" data_type in
  let params := [("dataType", PStr data_type)] in
  data <- _async_request "GET" (BASE_URL self ++ "/summary/fees/" ++ protocol_slug)
            (Some params) ;;
  model_validate models.Fee data.

End Client.

(** ** The operations of the client

    One constructor per pair of methods, with the arguments of the call; an
    argument with a default in the signature is [None] when the caller leaves
    it out. *)
Inductive Operation : Type :=
| GetProtocols
| GetProtocol (protocol_slug : string)
| GetHistoricalChainTvl (chain_slug : option string)
| GetProtocolTvl (protocol_slug : string)
| GetChains
| GetCurrentPrices (coins : list string) (search_width : option string)
| GetHistoricalPrices (timestamp : Z) (coins : list string) (search_width : option string)
| GetBatchHistoricalPrices (coins : list (string * list Z)) (search_width : option string)
| GetPriceChart (coins : list string) (start end_ span : option Z)
    (period search_width : option string)
| GetPricePercentageChange (coins : list string) (timestamp : option Z)
    (look_forward : option bool) (period : option string)
| GetFirstPrices (coins : list string)
| GetBlock (chain : string) (timestamp : Z)
| GetStablecoins (include_prices : option bool)
| GetStablecoinCharts (chain : option string) (stablecoin : option Z)
| GetStablecoinHistorical (asset_id : Z)
| GetStablecoinChains
| GetStablecoinPrices
| GetPools
| GetPoolChart (pool_id : string)
| GetDexs (chain : option string) (exclude_chart exclude_breakdown : option bool)
| GetDexSummary (protocol_slug : string) (exclude_chart exclude_breakdown : option bool)
| GetOptionsDexs (chain : option string) (exclude_chart exclude_breakdown : option bool)
    (data_type : option string)
| GetOptionsDexSummary (protocol_slug : string) (data_type : option string)
| GetFees (chain : option string) (exclude_chart exclude_breakdown : option bool)
    (data_type : option string)
| GetFeeSummary (protocol_slug : string) (data_type : option string).

(** A body returned as it was parsed. *)
Definition unvalidated (p : Prog JSON) : Prog PyVal := j <- p ;; Return (VRaw j).

(** The blocking form of an operation. *)
Definition blocking (lib : Library) (self : DefiLlama) (op : Operation) : Prog PyVal :=
  match op with
  | GetProtocols => get_protocols lib self
  | GetProtocol s => get_protocol lib self s
  | GetHistoricalChainTvl c => get_historical_chain_tvl lib self c
  | GetProtocolTvl s => unvalidated (get_protocol_tvl lib self s)
  | GetChains => get_chains lib self
  | GetCurrentPrices cs w => get_current_prices lib self cs w
  | GetHistoricalPrices t cs w => get_historical_prices lib self t cs w
  | GetBatchHistoricalPrices cs w => get_batch_historical_prices lib self cs w
  | GetPriceChart cs s e n p w => get_price_chart lib self cs s e n p w
  | GetPricePercentageChange cs t f p => get_price_percentage_change lib self cs t f p
  | GetFirstPrices cs => get_first_prices lib self cs
  | GetBlock c t => get_block lib self c t
  | GetStablecoins i => get_stablecoins lib self i
  | GetStablecoinCharts c s => get_stablecoin_charts lib self c s
  | GetStablecoinHistorical a => get_stablecoin_historical lib self a
  | GetStablecoinChains => get_stablecoin_chains lib self
  | GetStablecoinPrices => get_stablecoin_prices lib self
  | GetPools => get_pools lib self
  | GetPoolChart p => get_pool_chart lib self p
  | GetDexs c x y => get_dexs lib self c x y
  | GetDexSummary s x y => get_dex_summary lib self s x y
  | GetOptionsDexs c x y d => get_options_dexs lib self c x y d
  | GetOptionsDexSummary s d => get_options_dex_summary lib self s d
  | GetFees c x y d => get_fees lib self c x y d
  | GetFeeSummary s d => get_fee_summary lib self s d
  end.

(** The non-blocking form of an operation. *)
Definition non_blocking (lib : Library) (self : DefiLlama) (op : Operation) : Prog PyVal :=
  match op with
  | GetProtocols => get_protocols_async lib self
  | GetProtocol s => get_protocol_async lib self s
  | GetHistoricalChainTvl c => get_historical_chain_tvl_async lib self c
  | GetProtocolTvl s => unvalidated (get_protocol_tvl_async lib self s)
  | GetChains => get_chains_async lib self
  | GetCurrentPrices cs w => get_current_prices_async lib self cs w
  | GetHistoricalPrices t cs w => get_historical_prices_async lib self t cs w
  | GetBatchHistoricalPrices cs w => get_batch_historical_prices_async lib self cs w
  | GetPriceChart cs s e n p w => get_price_chart_async lib self cs s e n p w
  | GetPricePercentageChange cs t f p =>
      get_price_percentage_change_async lib self cs t f p
  | GetFirstPrices cs => get_first_prices_async lib self cs
  | GetBlock c t => get_block_async lib self c t
  | GetStablecoins i => get_stablecoins_async lib self i
  | GetStablecoinCharts c s => get_stablecoin_charts_async lib self c s
  | GetStablecoinHistorical a => get_stablecoin_historical_async lib self a
  | GetStablecoinChains => get_stablecoin_chains_async lib self
  | GetStablecoinPrices => get_stablecoin_prices_async lib self
  | GetPools => get_pools_async lib self
  | GetPoolChart p => get_pool_chart_async lib self p
  | GetDexs c x y => get_dexs_async lib self c x y
  | GetDexSummary s x y => get_dex_summary_async lib self s x y
  | GetOptionsDexs c x y d => get_options_dexs_async lib self c x y d
  | GetOptionsDexSummary s d => get_options_dex_summary_async lib self s d
  | GetFees c x y d => get_fees_async lib self c x y d
  | GetFeeSummary s d => get_fee_summary_async lib self s d
  end.

(** A remote that answers the same on both clients. *)
Definition same_remote (remote : Remote) : Prop :=
  forall rq, remote client rq = remote async_client rq.

(** The three kinds of failure the specification names, read off the class
    of the exception and of its cause. *)
Inductive ErrorKind := TransportError | HttpError | ValidationErrorKind.

Definition error_kind (e : PyExc) : option ErrorKind :=
  match e with
  | HttpxRequestError _ => Some TransportError
  | ValueError _ (Some (HTTPStatusError _ _ _)) => Some HttpError
  | ValidationError _ _ => Some ValidationErrorKind
  | _ => None
  end.

(** ** Vocabulary of the properties *)

(** What one call of [_request] / [_async_request] gives its caller. *)
Definition request_outcome (lib : Library) (rq : HttpRequest) (r : Reply) : Outcome JSON :=
  match r with
  | Failed e => Raised (HttpxRequestError e)
  | Responded res =>
      if is_success res then
        match body res with
        | JsonBody v => Returned v
        | TextBody raw => Raised (JSONDecodeError raw)
        end
      else
        Raised (ValueError ("HTTP error: " ++ status_error_str lib rq res)
                  (Some (HTTPStatusError (status_error_str lib rq res) rq res)))
  end.

(** A method that sends one request and then decodes without sending. *)
Definition decodes_only (k : JSON -> Prog PyVal) : Prop :=
  forall d,
    (exists lib m d', k d = model_validate lib m d') \/ k d = Return (VRaw d).

(** The method that performs an operation on a given client. *)
Definition method_on (c : Channel) (lib : Library) (self : DefiLlama) (op : Operation)
    : Prog PyVal :=
  match c with
  | client => blocking lib self op
  | async_client => non_blocking lib self op
  end.


(** The results of the fields of a model, in the order of the class. *)
Definition field_results (lib : Library) (strict : bool)
    (members : list (string * JSON)) (fs : list (FieldOf Ann)) : list (string * Validated) :=
  map (fun f => field_result (validate lib strict (fann f)) members (fname f) (fdefault f)) fs.

(** An amount of a chain-to-amount map: a JSON number, integer or not. *)
Definition Amount := (Z + Q)%type.

Definition amount_json (x : Amount) : JSON :=
  match x with
  | inl n => JInt n
  | inr q => JFloat q
  end.

Definition amount_float (x : Amount) : Q :=
  match x with
  | inl n =>
      match float_of_int n with
      | Some r => inject_Z r
      | None => inject_Z n
      end
  | inr q => q
  end.

(** An amount that is a float, or an integer within the range of floats. *)
Definition convertible (x : Amount) : bool :=
  match x with
  | inl n =>
      match float_of_int n with
      | Some _ => true
      | None => false
      end
  | inr _ => true
  end.

Definition all_convertible (m : list (string * Amount)) : Prop :=
  Forall (fun kv => convertible (snd kv) = true) m.

(** A chain-to-amount map as it comes in the body, and as it is decoded. *)
Definition amounts_json (m : list (string * Amount)) : JSON :=
  JObj (map (fun kv => (fst kv, amount_json (snd kv))) m).

Definition amounts_value (m : list (string * Amount)) : PyVal :=
  VDict (map (fun kv => (fst kv, VFloat (amount_float (snd kv)))) m).

(** The annotation of the three [circulatingPrev...] fields. *)
Definition circulating_union : Ann := AOptional (AUnion (ADict AFloat) AInt).

Definition prev_fields : list string :=
  ["circulatingPrevDay"; "circulatingPrevWeek"; "circulatingPrevMonth"].

(** The request of the protocol-detail operation. *)
Definition protocol_request (self : DefiLlama) (slug : string) : HttpRequest :=
  {| method := "GET"; url := BASE_URL self ++ "/protocol/" ++ slug; params := None |}.

(** The service answers a request with a 2xx response whose body is the
    JSON value [v]. *)
Definition answered (remote : Remote) (c : Channel) (rq : HttpRequest) (v : JSON) : Prop :=
  exists res, remote c rq = Responded res /\ is_success res = true /\ body res = JsonBody v.

(** The requests of the two operations whose collection comes in an
    envelope. *)
Definition stablecoins_request (self : DefiLlama) (include_prices : option bool)
    : HttpRequest :=
  {| method := "GET"; url := STABLECOINS_URL self ++ "/stablecoins";
     params := Some [("includePrices", PBool (or_default true include_prices))] |}.

Definition pools_request (self : DefiLlama) : HttpRequest :=
  {| method := "GET"; url := YIELDS_URL self ++ "/pools"; params := None |}.

(** The enveloped collection endpoints: the operation, its request, the key
    of its envelope and the model of its elements. *)
Inductive Enveloped (self : DefiLlama) : Operation -> HttpRequest -> string -> Ann -> Prop :=
| Enveloped_stablecoins include_prices :
    Enveloped self (GetStablecoins include_prices)
      (stablecoins_request self include_prices) "peggedAssets" models.Stablecoin
| Enveloped_pools :
    Enveloped self GetPools (pools_request self) "data" models.Pool.

(** The query parameters of the requests a method sends, and their keys. *)
Definition query (rq : HttpRequest) : Params :=
  match params rq with
  | Some ps => ps
  | None => []
  end.

Definition sent_params {A} (remote : Remote) (p : Prog A) : Params :=
  concat (map (fun cr => query (snd cr)) (trace remote p)).

Definition sent_keys {A} (remote : Remote) (p : Prog A) : list string :=
  dict_keys (sent_params remote p).

(** The URLs of the requests a method sends. *)
Definition sent_urls {A} (remote : Remote) (p : Prog A) : list string :=
  map (fun cr => url (snd cr)) (trace remote p).

(** "The identifiers joined with single commas in the caller's order", said
    without [join]: one identifier stands alone, and each further one follows
    a comma. *)
Inductive comma_joined : list string -> string -> Prop :=
| joined_one a : comma_joined [a] a
| joined_more a rest s : comma_joined rest s -> comma_joined (a :: rest) (a ++ "," ++ s).

(** The simplified-TVL method on a given client, and its request. *)
Definition protocol_tvl_on (c : Channel) (lib : Library) (self : DefiLlama) (slug : string)
    : Prog JSON :=
  match c with
  | client => get_protocol_tvl lib self slug
  | async_client => get_protocol_tvl_async lib self slug
  end.

Definition tvl_request (self : DefiLlama) (slug : string) : HttpRequest :=
  {| method := "GET"; url := BASE_URL self ++ "/tvl/" ++ slug; params := None |}.

(** The host an operation is bound to. *)
Definition host_of (self : DefiLlama) (op : Operation) : string :=
  match op with
  | GetProtocols | GetProtocol _ | GetHistoricalChainTvl _ | GetProtocolTvl _ | GetChains
  | GetDexs _ _ _ | GetDexSummary _ _ _ | GetOptionsDexs _ _ _ _
  | GetOptionsDexSummary _ _ | GetFees _ _ _ _ | GetFeeSummary _ _ => BASE_URL self
  | GetCurrentPrices _ _ | GetHistoricalPrices _ _ _ | GetBatchHistoricalPrices _ _
  | GetPriceChart _ _ _ _ _ _ | GetPricePercentageChange _ _ _ _ | GetFirstPrices _
  | GetBlock _ _ => COINS_URL self
  | GetStablecoins _ | GetStablecoinCharts _ _ | GetStablecoinHistorical _
  | GetStablecoinChains | GetStablecoinPrices => STABLECOINS_URL self
  | GetPools | GetPoolChart _ => YIELDS_URL self
  end.

(** [s.split(sep)] for a separator of one character. *)
Fixpoint split_on (sep : ascii) (s : string) : list string :=
  match s with
  | EmptyString => [EmptyString]
  | String ch s' =>
      if Ascii.eqb ch sep then EmptyString :: split_on sep s'
      else
        match split_on sep s' with
        | [] => [String ch EmptyString]
        | w :: ws => String ch w :: ws
        end
  end.

Definition comma : ascii := ascii_of_nat 44.

(** Printable ASCII other than the single quote and the backslash: the
    characters [repr] leaves as they are inside single quotes. *)
Definition plain_char (ch : ascii) : bool :=
  let n := nat_of_ascii ch in
  andb (andb (Nat.leb 32 n) (Nat.leb n 126)) (andb (negb (Nat.eqb n 39)) (negb (Nat.eqb n 92))).

Fixpoint plain (s : string) : bool :=
  match s with
  | EmptyString => true
  | String ch s' => andb (plain_char ch) (plain s')
  end.

(** The rows of a chart as they come in the body, and as they are decoded:
    every cell a number that keeps its kind. *)
Definition amount_value (x : Amount) : PyVal :=
  match x with
  | inl n => VInt n
  | inr q => VFloat q
  end.

Definition chart_ann : Ann := AList (AList (AUnion AInt AFloat)).

Definition chart_json (rows : list (list Amount)) : JSON :=
  JArr (map (fun row => JArr (map amount_json row)) rows).

Definition chart_value (rows : list (list Amount)) : PyVal :=
  VList (map (fun row => VList (map amount_value row)) rows).

(** ** A library instance and sample data, for the examples *)

Module Sample.

Definition lib : Library := {|
  str_as_int := fun s => option_map Z.of_int (NilZero.int_of_string s);
  str_as_float := fun s => option_map (fun i => inject_Z (Z.of_int i)) (NilZero.int_of_string s);
  validate_ext := fun _ _ v =>
    match v with
    | JInt n => Some (str_of_int n)
    | JStr s => Some s
    | _ => None
    end;
  status_error_str := fun rq res =>
    "status " ++ str_of_int (status_code res) ++ " for url '" ++ url rq ++ "'";
  unicode_lower := fun s => s
|}.

Definition ok (v : JSON) : Response := {| status_code := 200; body := JsonBody v |}.

(** A service that answers every request with the same reply. *)
Definition always (r : Reply) : Remote := fun _ _ => r.

Definition usdt (circulating prev_day : JSON) : JSON := JObj [
  ("id", JStr "1");
  ("name", JStr "Tether");
  ("symbol", JStr "USDT");
  ("gecko_id", JStr "tether");
  ("pegType", JStr "peggedUSD");
  ("priceSource", JStr "defillama");
  ("pegMechanism", JStr "fiat-backed");
  ("circulating", circulating);
  ("circulatingPrevDay", prev_day);
  ("price", JInt 1) ].

Definition usdt_value (circulating prev_day : PyVal) : PyVal := VModel "Stablecoin" [
  ("id", VStr "1");
  ("name", VStr "Tether");
  ("symbol", VStr "USDT");
  ("gecko_id", VStr "tether");
  ("pegType", VStr "peggedUSD");
  ("priceSource", VStr "defillama");
  ("pegMechanism", VStr "fiat-backed");
  ("circulating", circulating);
  ("circulatingPrevDay", prev_day);
  ("circulatingPrevWeek", VNone);
  ("circulatingPrevMonth", VNone);
  ("price", VFloat 1);
  ("chainCirculating", VNone) ].

(** A service that knows the block of one chain under its lower-case name
    and answers 400 to any other path. *)
Definition block_service : Remote := fun _ rq =>
  if String.eqb (url rq) "https://coins.llama.fi/block/ethereum/1700000000"
  then Responded (ok (JObj [("height", JInt 18573000); ("timestamp", JInt 1700000003)]))
  else Responded {| status_code := 400; body := TextBody "unknown chain" |}.

End Sample.

(** * Properties *)

(** ** Running programs *)

Lemma run_bind A B (remote : Remote) (p : Prog A) (f : A -> Prog B) :
  run remote (bind p f) =
  match run remote p with
  | Returned a => run remote (f a)
  | Raised e => Raised e
  end.
Proof.
  induction p as [a | e | c rq k IH]; simpl; auto.
Qed.

Lemma trace_bind A B (remote : Remote) (p : Prog A) (f : A -> Prog B) :
  trace remote (bind p f) =
  (trace remote p ++
   match run remote p with
   | Returned a => trace remote (f a)
   | Raised _ => []
   end)%list.
Proof.
  induction p as [a | e | c rq k IH]; simpl; auto.
  now rewrite IH.
Qed.

Lemma run_request_on lib remote c m u ps :
  run remote (request_on lib c m u ps) =
  request_outcome lib {| method := m; url := u; params := ps |}
    (remote c {| method := m; url := u; params := ps |}).
Proof.
  unfold request_on, request, raise_for_status, json, request_outcome; simpl.
  destruct (remote c _) as [res | e]; simpl; auto.
  destruct (is_success res); simpl; auto.
  destruct (body res); reflexivity.
Qed.

Lemma trace_request_on lib remote c m u ps :
  trace remote (request_on lib c m u ps) = [(c, {| method := m; url := u; params := ps |})].
Proof.
  unfold request_on, request, raise_for_status, json; simpl.
  destruct (remote c _) as [res | e]; simpl; auto.
  destruct (is_success res); simpl; auto.
  destruct (body res); reflexivity.
Qed.

Lemma run_model_validate lib remote m data :
  run remote (model_validate lib m data) =
  match validate lib false m data with
  | inl v => Returned v
  | inr es => Raised (ValidationError (ann_tag m) es)
  end.
Proof.
  unfold model_validate. destruct (validate lib false m data); reflexivity.
Qed.

Lemma trace_model_validate lib remote m data :
  trace remote (model_validate lib m data) = [].
Proof.
  unfold model_validate. destruct (validate lib false m data); reflexivity.
Qed.

Lemma run_fetch lib remote c m u ps (k : JSON -> Prog PyVal) :
  run remote (bind (request_on lib c m u ps) k) =
  match request_outcome lib {| method := m; url := u; params := ps |}
          (remote c {| method := m; url := u; params := ps |}) with
  | Returned d => run remote (k d)
  | Raised e => Raised e
  end.
Proof.
  now rewrite run_bind, run_request_on.
Qed.

Lemma trace_fetch lib remote c m u ps (k : JSON -> Prog PyVal) :
  decodes_only k ->
  trace remote (bind (request_on lib c m u ps) k) =
  [(c, {| method := m; url := u; params := ps |})].
Proof.
  intros Hk. rewrite trace_bind, trace_request_on.
  destruct (run remote (request_on lib c m u ps)) as [d | e]; auto.
  destruct (Hk d) as [(lib' & m' & d' & ->) | ->]; simpl; auto.
  now rewrite trace_model_validate.
Qed.

Lemma validating_decodes_only lib m (f : JSON -> JSON) :
  decodes_only (fun data => model_validate lib m (f data)).
Proof.
  intro d. left. do 3 eexists. reflexivity.
Qed.

(** Every method is one request followed by a decoder; the two forms of an
    operation other than [get_block] differ in the client only. *)
Lemma blocking_shape lib self op :
  exists u ps k, decodes_only k /\
    blocking lib self op = bind (request_on lib client "GET" u ps) k.
Proof.
  destruct op; simpl; unfold unvalidated;
    (do 3 eexists; split; [| reflexivity]);
    intro d; try (left; do 3 eexists; reflexivity); right; reflexivity.
Qed.

Lemma non_blocking_shape lib self op :
  exists u ps k, decodes_only k /\
    non_blocking lib self op = bind (request_on lib async_client "GET" u ps) k.
Proof.
  destruct op; simpl; unfold unvalidated;
    (do 3 eexists; split; [| reflexivity]);
    intro d; try (left; do 3 eexists; reflexivity); right; reflexivity.
Qed.

Lemma method_shape c lib self op :
  exists u ps k, decodes_only k /\
    method_on c lib self op = bind (request_on lib c "GET" u ps) k.
Proof.
  destruct c; [apply blocking_shape | apply non_blocking_shape].
Qed.

(** ** Failures *)




(** ** Blocking and non-blocking forms *)

Lemma fetch_agree lib remote m u ps (k : JSON -> Prog PyVal) :
  same_remote remote ->
  run remote (bind (request_on lib client m u ps) k) =
  run remote (bind (request_on lib async_client m u ps) k).
Proof.
  intros Hsame. now rewrite !run_fetch, Hsame.
Qed.

(** Apart from [get_block] on a chain name that [chain.lower()] changes,
    the two forms of every operation send the same request and, against a
    service that answers both clients alike, end the same way. *)
Lemma forms_agree lib self remote op :
  same_remote remote ->
  (forall c t, op = GetBlock c t -> str_lower lib c = c) ->
  map snd (trace remote (blocking lib self op)) =
    map snd (trace remote (non_blocking lib self op))
  /\ run remote (blocking lib self op) = run remote (non_blocking lib self op).
Proof.
  intros Hsame Hblock.
  assert (Hshape : exists u ps k, decodes_only k /\
            blocking lib self op = bind (request_on lib client "GET" u ps) k /\
            non_blocking lib self op = bind (request_on lib async_client "GET" u ps) k).
  { destruct op; simpl; unfold unvalidated;
      try (do 3 eexists; split; [| split; reflexivity];
           intro d; try (left; do 3 eexists; reflexivity); right; reflexivity).
    unfold get_block, get_block_async. rewrite (Hblock chain timestamp eq_refl).
    do 3 eexists; split; [| split; reflexivity].
    intro d; left; do 3 eexists; reflexivity. }
  destruct Hshape as (u & ps & k & Hk & -> & ->).
  split.
  - now rewrite !trace_fetch.
  - now apply fetch_agree.
Qed.

Lemma lower_length s : String.length (lower s) = String.length s.
Proof.
  induction s as [| ch s IH]; simpl; congruence.
Qed.

Lemma append_cancel_l (p a b : string) : p ++ a = p ++ b -> a = b.
Proof.
  induction p as [| ch p IH]; simpl; intros H; [exact H |].
  injection H as H. auto.
Qed.

Lemma append_cancel_r (a b s : string) :
  String.length a = String.length b -> a ++ s = b ++ s -> a = b.
Proof.
  revert b. induction a as [| x a IH]; intros [| y b] Hlen H; simpl in *;
    try discriminate; [reflexivity |].
  injection H as -> H. f_equal. apply IH; congruence.
Qed.

Lemma append_length (a s : string) :
  String.length (a ++ s) = (String.length a + String.length s)%nat.
Proof.
  induction a as [| x a IH]; simpl; congruence.
Qed.

Lemma append_cancel_suffix (a b s : string) : a ++ s = b ++ s -> a = b.
Proof.
  intros H. apply (append_cancel_r a b s); [| exact H].
  apply (f_equal String.length) in H. rewrite !append_length in H. lia.
Qed.

Lemma lower_ascii_idempotent ch : lower_ascii (lower_ascii ch) = lower_ascii ch.
Proof.
  destruct ch as [[] [] [] [] [] [] [] []]; reflexivity.
Qed.

Lemma lower_idempotent s : lower (lower s) = lower s.
Proof.
  induction s as [| ch s IH]; simpl; [reflexivity |].
  now rewrite lower_ascii_idempotent, IH.
Qed.

(** What [chain.lower()] leaves alone has no ASCII capital. *)
Lemma str_lower_fixed lib chain : str_lower lib chain = chain -> lower chain = chain.
Proof.
  unfold str_lower. destruct (is_ascii chain); intros H; [exact H |].
  rewrite <- H at 1. rewrite lower_idempotent. exact H.
Qed.

(** Whenever the chain name has an upper-case letter, the request of
    [get_block] is not the request of [get_block_async]. *)
Lemma get_block_requests_differ lib self remote chain timestamp :
  lower chain <> chain ->
  map snd (trace remote (get_block lib self chain timestamp)) <>
  map snd (trace remote (get_block_async lib self chain timestamp)).
Proof.
  intros Hlower. unfold get_block, get_block_async, _request, _async_request.
  rewrite !trace_fetch by (apply validating_decodes_only with (f := fun d => d)).
  cbn [map snd]. intros H. injection H as H. apply Hlower.
  apply append_cancel_l in H. apply (append_cancel_l "/block/") in H.
  apply append_cancel_suffix in H. exact (@str_lower_fixed lib chain H).
Qed.

(** C2 at [chain = "Ethereum"]: [get_block] lower-cases the chain in the
    path and [get_block_async] does not, so the two forms send different
    requests; a service that tells the two paths apart answers the first with
    a block and the second with status 400. *)
Theorem get_block_forms_differ :
  let sync := get_block Sample.lib __init__ "Ethereum" 1700000000 in
  let async := get_block_async Sample.lib __init__ "Ethereum" 1700000000 in
  same_remote Sample.block_service
  /\ map snd (trace Sample.block_service sync) =
       [{| method := "GET"; url := "https://coins.llama.fi/block/ethereum/1700000000";
           params := None |}]
  /\ map snd (trace Sample.block_service async) =
       [{| method := "GET"; url := "https://coins.llama.fi/block/Ethereum/1700000000";
           params := None |}]
  /\ run Sample.block_service sync =
       Returned (VModel "Block" [("height", VInt 18573000); ("timestamp", VInt 1700000003)])
  /\ (exists msg cause, run Sample.block_service async = Raised (ValueError msg cause)).
Proof.
  repeat split.
  eexists; eexists; reflexivity.
Qed.

(** ** Dictionaries *)

Lemma dict_get_set_same V k (v : V) d : dict_get k (dict_set k v d) = Some v.
Proof.
  induction d as [| [k' v'] d IH]; simpl.
  - now rewrite String.eqb_refl.
  - destruct (String.eqb k k') eqn:E; simpl; rewrite E; auto.
Qed.

Lemma dict_get_set_other V k k' (v : V) d :
  k' <> k -> dict_get k' (dict_set k v d) = dict_get k' d.
Proof.
  intros Hne. induction d as [| [k0 v0] d IH]; simpl.
  - apply String.eqb_neq in Hne. now rewrite Hne.
  - destruct (String.eqb k k0) eqn:E; simpl.
    + apply String.eqb_eq in E. subst k0.
      apply String.eqb_neq in Hne. now rewrite Hne.
    + now rewrite IH.
Qed.

(** ** Validation of models *)

Lemma validate_model_eq lib strict cls fs members :
  validate lib strict (AModel cls fs) (JObj members) =
  collect_items (VModel cls) (field_results lib strict members fs).
Proof.
  simpl. f_equal. unfold field_results.
  induction fs as [| [name a d] fs IH]; simpl; [reflexivity |].
  now rewrite IH.
Qed.

Lemma field_results_set_absent lib strict k v members fs :
  ~ In k (map (@fname Ann) fs) ->
  field_results lib strict (dict_set k v members) fs = field_results lib strict members fs.
Proof.
  unfold field_results. induction fs as [| f fs IH]; simpl; intros Hnot; [reflexivity |].
  rewrite IH by tauto.
  unfold field_result. rewrite dict_get_set_other; [reflexivity |].
  intros E. apply Hnot. now left.
Qed.

(** Replacing the value of one field of an accepted object by a value its
    annotation accepts replaces the attribute, and nothing else. *)
Lemma item_values_update lib strict k a d v x members fs attrs :
  NoDup (map (@fname Ann) fs) ->
  In (Field k a d) fs ->
  validate lib strict a v = inl x ->
  item_values (field_results lib strict members fs) = Some attrs ->
  item_values (field_results lib strict (dict_set k v members) fs) = Some (dict_set k x attrs).
Proof.
  intros Hnodup Hin Hv. revert attrs.
  induction fs as [| f fs IH]; simpl; intros attrs Hattrs; [contradiction |].
  inversion Hnodup as [| ? ? Hfresh Hnodup']; subst.
  destruct Hin as [-> | Hin].
  - simpl in *. rewrite dict_get_set_same, Hv.
    rewrite field_results_set_absent by assumption.
    destruct (dict_get k members) as [old |].
    + destruct (validate lib strict a old); [| discriminate].
      destruct (item_values (field_results lib strict members fs)); [| discriminate].
      injection Hattrs as <-. simpl. now rewrite String.eqb_refl.
    + destruct d as [| dv]; [discriminate |].
      destruct (item_values (field_results lib strict members fs)); [| discriminate].
      injection Hattrs as <-. simpl. now rewrite String.eqb_refl.
  - assert (Hne : fname f <> k).
    { intros <-. apply Hfresh. apply (in_map (@fname Ann)) in Hin. exact Hin. }
    unfold field_result in *. rewrite dict_get_set_other by assumption.
    match type of Hattrs with
    | match ?r with _ => _ end = _ => destruct r as [val | es]; [| discriminate]
    end.
    destruct (item_values (field_results lib strict members fs)) as [rest |];
      [| discriminate].
    injection Hattrs as <-.
    rewrite (IH Hnodup' Hin rest eq_refl). simpl.
    assert (E : String.eqb k (fname f) = false) by (apply String.eqb_neq; congruence).
    now rewrite E.
Qed.

Lemma model_field_update lib cls fs k a d v x members attrs :
  NoDup (map (@fname Ann) fs) ->
  In (Field k a d) fs ->
  validate lib false a v = inl x ->
  validate lib false (AModel cls fs) (JObj members) = inl (VModel cls attrs) ->
  validate lib false (AModel cls fs) (JObj (dict_set k v members)) =
    inl (VModel cls (dict_set k x attrs)).
Proof.
  intros Hnodup Hin Hv. rewrite !validate_model_eq. unfold collect_items.
  destruct (item_values (field_results lib false members fs)) as [attrs0 |] eqn:E;
    [| discriminate].
  intros H. injection H as <-.
  now rewrite (@item_values_update lib false k a d v x members fs attrs0 Hnodup Hin Hv E).
Qed.

(** A value that the annotation of a field rejects makes the object
    invalid. *)
Lemma item_values_invalid lib strict k a d v es members fs :
  In (Field k a d) fs ->
  validate lib strict a v = inr es ->
  item_values (field_results lib strict (dict_set k v members) fs) = None.
Proof.
  intros Hin Hv. induction fs as [| f fs IH]; simpl; [contradiction |].
  destruct Hin as [-> | Hin].
  - simpl. now rewrite dict_get_set_same, Hv.
  - match goal with
    | |- match ?r with _ => _ end = None => destruct r as [val | er]
    end; [| reflexivity].
    now rewrite (IH Hin).
Qed.

Lemma model_field_invalid lib cls fs k a d v es members :
  In (Field k a d) fs ->
  validate lib false a v = inr es ->
  exists errors, validate lib false (AModel cls fs) (JObj (dict_set k v members)) = inr errors.
Proof.
  intros Hin Hv. rewrite validate_model_eq. unfold collect_items.
  rewrite (@item_values_invalid lib false k a d v es members fs Hin Hv). eauto.
Qed.

(** ** Chain-to-amount maps and sentinels *)

Lemma float_of_int_exact n : Z.abs n <= 2 ^ 53 -> float_of_int n = Some n.
Proof.
  intros H. unfold float_of_int. apply Z.leb_le in H. now rewrite H.
Qed.

Lemma validate_amounts lib strict m :
  all_convertible m ->
  validate lib strict (ADict AFloat) (amounts_json m) = inl (amounts_value m).
Proof.
  intros Hm. unfold amounts_json, amounts_value. simpl. unfold collect_items.
  assert (H : item_values
                (map (fun kv => (fst kv, validate_float lib strict (snd kv)))
                   (map (fun kv => (fst kv, amount_json (snd kv))) m))
              = Some (map (fun kv => (fst kv, VFloat (amount_float (snd kv)))) m)).
  { induction Hm as [| [k [n | q]] m Hx _ IH]; [reflexivity | |];
      cbn [map fst snd item_values amount_json amount_float validate_float convertible] in *.
    - destruct (float_of_int n); [| discriminate]. now rewrite IH.
    - now rewrite IH. }
  now rewrite H.
Qed.

Lemma circulating_union_map lib m :
  all_convertible m ->
  validate lib false circulating_union (amounts_json m) = inl (amounts_value m).
Proof.
  intros Hm.
  change (validate lib false circulating_union (amounts_json m))
    with (validate lib false (AUnion (ADict AFloat) AInt) (amounts_json m)).
  change (validate lib false (AUnion (ADict AFloat) AInt) (amounts_json m))
    with (match validate lib true (ADict AFloat) (amounts_json m) with
          | inl r => inl r
          | inr e1 =>
              match validate lib true AInt (amounts_json m) with
              | inl r => inl r
              | inr e2 =>
                  match validate lib false (ADict AFloat) (amounts_json m) with
                  | inl r => inl r
                  | inr e1' =>
                      match validate lib false AInt (amounts_json m) with
                      | inl r => inl r
                      | inr e2' =>
                          inr (tagged (ADict AFloat) (inr e1') ++ tagged AInt (inr e2'))%list
                      end
                  end
              end
          end).
  now rewrite validate_amounts.
Qed.

Lemma circulating_union_int lib n :
  validate lib false circulating_union (JInt n) = inl (VInt n).
Proof. reflexivity. Qed.

Lemma circulating_map_only lib v :
  (forall m, v <> JObj m) ->
  validate lib false (ADict AFloat) v = invalid "dict_type".
Proof.
  intros H. destruct v; try reflexivity. now elim (H members).
Qed.

Lemma Stablecoin_fields_nodup : NoDup (map (@fname Ann) (model_fields models.Stablecoin)).
Proof.
  simpl. repeat (constructor; [simpl; intuition discriminate |]). constructor.
Qed.

Lemma float_as_int_whole n :
  Z.abs n <= 2 ^ 53 -> float_as_int (inject_Z n) = inl n.
Proof.
  intros Hn. unfold float_as_int.
  assert (E : Qred (inject_Z n) = inject_Z n).
  { unfold Qred, inject_Z.
    pose proof (Z.ggcd_gcd n 1) as Hg. pose proof (Z.ggcd_correct_divisors n 1) as Hd.
    destruct (Z.ggcd n 1) as (g, (aa, bb)). simpl in Hg.
    rewrite Z.gcd_1_r in Hg. subst g. destruct Hd as [Ha Hb].
    rewrite Z.mul_1_l in Ha, Hb. now subst. }
  rewrite E. cbn [inject_Z Qnum Qden Pos.eqb].
  assert (Hlo : Z.ltb (- 2 ^ 63) n = true) by (apply Z.ltb_lt; lia).
  assert (Hhi : Z.ltb n (2 ^ 63) = true) by (apply Z.ltb_lt; lia).
  now rewrite Hlo, Hhi.
Qed.

Lemma float_as_int_fraction x :
  Qden (Qred x) <> 1%positive -> float_as_int x = inr "int_from_float".
Proof.
  intros H. unfold float_as_int.
  destruct (Pos.eqb (Qden (Qred x)) 1) eqn:E; [| reflexivity].
  apply Pos.eqb_eq in E. contradiction.
Qed.

Lemma circulating_union_float lib x :
  validate lib false circulating_union (JFloat x) =
  match float_as_int x with
  | inl n => inl (VInt n)
  | inr code =>
      inr [{| loc := [Key "dict[str,float]"]; etype := "dict_type" |};
           {| loc := [Key "int"]; etype := code |}]
  end.
Proof.
  cbn -[float_as_int]. destruct (float_as_int x); reflexivity.
Qed.

(** C3, as the code has it: in a Stablecoin record that decodes, each of
    [circulatingPrevDay], [circulatingPrevWeek] and [circulatingPrevMonth]
    may be replaced by a chain-to-amount map whose integer amounts Python
    can convert to float, by a bare integer, or by a float that is a whole
    number up to 2^53; the record still decodes, to the dict in the first
    case and to the [int] in the other two.  A float with a fractional part
    there makes the record invalid.  [circulating] itself may be replaced by
    such a map, and by nothing that is not a JSON object. *)
Theorem stablecoin_circulating_variants lib members attrs :
  validate lib false models.Stablecoin (JObj members) = inl (VModel "Stablecoin" attrs) ->
  (forall k, In k prev_fields ->
     (forall m, all_convertible m ->
        validate lib false models.Stablecoin (JObj (dict_set k (amounts_json m) members)) =
        inl (VModel "Stablecoin" (dict_set k (amounts_value m) attrs)))
     /\
     (forall n,
        validate lib false models.Stablecoin (JObj (dict_set k (JInt n) members)) =
        inl (VModel "Stablecoin" (dict_set k (VInt n) attrs)))
     /\
     (forall n, Z.abs n <= 2 ^ 53 ->
        validate lib false models.Stablecoin
          (JObj (dict_set k (JFloat (inject_Z n)) members)) =
        inl (VModel "Stablecoin" (dict_set k (VInt n) attrs)))
     /\
     (forall x, Qden (Qred x) <> 1%positive ->
        exists errors,
          validate lib false models.Stablecoin (JObj (dict_set k (JFloat x) members)) =
          inr errors))
  /\ (forall m, all_convertible m ->
        validate lib false models.Stablecoin
          (JObj (dict_set "circulating" (amounts_json m) members)) =
        inl (VModel "Stablecoin" (dict_set "circulating" (amounts_value m) attrs)))
  /\ (forall v, (forall m, v <> JObj m) ->
        exists errors,
          validate lib false models.Stablecoin (JObj (dict_set "circulating" v members)) =
          inr errors).
Proof.
  intros Hbase.
  assert (Hfield : forall k, In k prev_fields ->
            In (Field k circulating_union (Default VNone)) (model_fields models.Stablecoin)).
  { intros k Hk. simpl in Hk |- *. intuition (subst; auto 15). }
  split; [| split].
  - intros k Hk. pose proof (Hfield k Hk) as Hin. split; [| split; [| split]].
    + intros m Hm.
      apply (@model_field_update lib "Stablecoin" _ k circulating_union (Default VNone));
        auto using Stablecoin_fields_nodup, circulating_union_map.
    + intros n.
      apply (@model_field_update lib "Stablecoin" _ k circulating_union (Default VNone));
        auto using Stablecoin_fields_nodup, circulating_union_int.
    + intros n Hn.
      apply (@model_field_update lib "Stablecoin" _ k circulating_union (Default VNone));
        auto using Stablecoin_fields_nodup.
      now rewrite circulating_union_float, float_as_int_whole.
    + intros x Hx.
      apply (@model_field_invalid lib "Stablecoin" _ k circulating_union (Default VNone)
               (JFloat x)
               [{| loc := [Key "dict[str,float]"]; etype := "dict_type" |};
                {| loc := [Key "int"]; etype := "int_from_float" |}]); [exact Hin |].
      now rewrite circulating_union_float, float_as_int_fraction.
  - intros m Hm.
    apply (@model_field_update lib "Stablecoin" _ "circulating" (ADict AFloat) Required);
      auto using Stablecoin_fields_nodup, validate_amounts.
    simpl. auto 15.
  - intros v Hv.
    apply (@model_field_invalid lib "Stablecoin" _ "circulating" (ADict AFloat) Required
             v [{| loc := []; etype := "dict_type" |}]).
    + simpl. auto 15.
    + now apply circulating_map_only.
Qed.

(** Two Stablecoin records that do not decode: one whose [circulating] is
    the bare number 0, the field being declared [Dict[str, float]]; and one
    whose [circulatingPrevDay] is the number 1.5, which is neither a map nor
    an integer. *)
Lemma circulating_sentinel_rejected :
  validate Sample.lib false models.Stablecoin (Sample.usdt (JInt 0) (JInt 0)) =
    inr [{| loc := [Key "circulating"]; etype := "dict_type" |}]
  /\ validate Sample.lib false models.Stablecoin
       (Sample.usdt (JObj [("peggedUSD", JFloat (1000 # 1))]) (JFloat (3 # 2))) =
     inr [{| loc := [Key "circulatingPrevDay"; Key "dict[str,float]"]; etype := "dict_type" |};
          {| loc := [Key "circulatingPrevDay"; Key "int"]; etype := "int_from_float" |}].
Proof. split; reflexivity. Qed.

Lemma stablecoin_circulating_variants_witness :
  let members :=
    match Sample.usdt (amounts_json [("peggedUSD", inr (1000 # 1))]) JNull with
    | JObj ms => ms
    | _ => []
    end in
  let attrs :=
    match Sample.usdt_value (amounts_value [("peggedUSD", inr (1000 # 1))]) VNone with
    | VModel _ ats => ats
    | _ => []
    end in
  validate Sample.lib false models.Stablecoin (JObj members) = inl (VModel "Stablecoin" attrs)
  /\ validate Sample.lib false models.Stablecoin
       (JObj (dict_set "circulatingPrevWeek" (JInt 0) members)) =
     inl (VModel "Stablecoin" (dict_set "circulatingPrevWeek" (VInt 0) attrs)).
Proof.
  split; [reflexivity |].
  refine (proj1 (proj2 (proj1 (@stablecoin_circulating_variants Sample.lib _ _ _)
                          "circulatingPrevWeek" _)) 0).
  - reflexivity.
  - simpl. auto.
Defined.

(** C6: the annotation of [circulatingPrevDay] decodes {"ethereum": 1000.0}
    to the dict with exactly that key and value and 0 to the [int] 0, alone
    and inside a Stablecoin record. *)
Theorem circulatingPrevDay_round_trip lib :
  field_ann models.Stablecoin "circulatingPrevDay" = Some circulating_union
  /\ validate lib false circulating_union (JObj [("ethereum", JFloat (1000 # 1))]) =
       inl (VDict [("ethereum", VFloat (1000 # 1))])
  /\ validate lib false circulating_union (JInt 0) = inl (VInt 0)
  /\ validate lib false models.Stablecoin
       (Sample.usdt (JObj [("peggedUSD", JFloat (1000 # 1))])
                    (JObj [("ethereum", JFloat (1000 # 1))])) =
       inl (Sample.usdt_value (VDict [("peggedUSD", VFloat (1000 # 1))])
                              (VDict [("ethereum", VFloat (1000 # 1))]))
  /\ validate lib false models.Stablecoin
       (Sample.usdt (JObj [("peggedUSD", JFloat (1000 # 1))]) (JInt 0)) =
       inl (Sample.usdt_value (VDict [("peggedUSD", VFloat (1000 # 1))]) (VInt 0)).
Proof.
  repeat split.
Qed.

(** ** The protocol-detail operation *)

(** C4: when the service answers the request for a slug with status 400 or
    404, both forms of the protocol-detail operation send that one request
    and raise the HTTP-status error, whose cause holds the response; the body
    is never decoded and nothing is returned. *)
Theorem nonexistent_protocol_is_http_error (c : Channel) lib self remote slug res :
  remote c (protocol_request self slug) = Responded res ->
  status_code res = 400 \/ status_code res = 404 ->
  trace remote (method_on c lib self (GetProtocol slug)) = [(c, protocol_request self slug)]
  /\ run remote (method_on c lib self (GetProtocol slug)) =
       Raised (ValueError
                 ("HTTP error: " ++ status_error_str lib (protocol_request self slug) res)
                 (Some (HTTPStatusError
                          (status_error_str lib (protocol_request self slug) res)
                          (protocol_request self slug) res)))
  /\ (forall e, run remote (method_on c lib self (GetProtocol slug)) = Raised e ->
        error_kind e = Some HttpError).
Proof.
  intros Hreply Hstatus.
  assert (Hfail : is_success res = false).
  { unfold is_success. destruct Hstatus as [-> | ->]; reflexivity. }
  assert (Hrun : run remote (method_on c lib self (GetProtocol slug)) =
                 Raised (ValueError
                   ("HTTP error: " ++ status_error_str lib (protocol_request self slug) res)
                   (Some (HTTPStatusError
                            (status_error_str lib (protocol_request self slug) res)
                            (protocol_request self slug) res)))).
  { destruct c; cbv beta iota delta [method_on blocking non_blocking];
      unfold get_protocol, get_protocol_async, _request, _async_request;
      rewrite run_fetch; fold (protocol_request self slug);
      rewrite Hreply; simpl; now rewrite Hfail. }
  split; [| split].
  - destruct c; cbv beta iota delta [method_on blocking non_blocking];
      unfold get_protocol, get_protocol_async, _request, _async_request;
      apply trace_fetch; intro d; left; do 3 eexists; reflexivity.
  - exact Hrun.
  - intros e He. rewrite Hrun in He. injection He as <-. reflexivity.
Qed.

Lemma nonexistent_protocol_is_http_error_witness :
  let res := {| status_code := 404; body := TextBody "Not Found" |} in
  let remote := Sample.always (Responded res) in
  let rq := protocol_request __init__ "nonexistent-protocol-slug" in
  remote client rq = Responded res
  /\ (status_code res = 400 \/ status_code res = 404)
  /\ run remote (get_protocol Sample.lib __init__ "nonexistent-protocol-slug") =
       Raised (ValueError ("HTTP error: " ++ status_error_str Sample.lib rq res)
                 (Some (HTTPStatusError (status_error_str Sample.lib rq res) rq res))).
Proof.
  split; [reflexivity |]. split; [right; reflexivity |].
  refine (proj1 (proj2 (@nonexistent_protocol_is_http_error client Sample.lib __init__
                          (Sample.always (Responded {| status_code := 404;
                                                       body := TextBody "Not Found" |}))
                          "nonexistent-protocol-slug" _ _ _))).
  - reflexivity.
  - right; reflexivity.
Defined.

(** ** Envelopes *)

Lemma validate_list_each lib strict elem items values :
  Forall2 (fun j v => validate lib strict elem j = inl v) items values ->
  validate lib strict (AList elem) (JArr items) = inl (VList values).
Proof.
  intros H. simpl. unfold collect_list.
  assert (E : list_values (map (validate lib strict elem) items) = Some values).
  { induction H as [| j v items values Hj _ IH]; simpl; [reflexivity |].
    now rewrite Hj, IH. }
  now rewrite E.
Qed.

Lemma run_answered lib remote c m u ps v (k : JSON -> Prog PyVal) :
  answered remote c {| method := m; url := u; params := ps |} v ->
  run remote (bind (request_on lib c m u ps) k) = run remote (k v).
Proof.
  intros (res & Hreply & Hok & Hbody).
  rewrite run_fetch, Hreply. simpl. now rewrite Hok, Hbody.
Qed.

Lemma enveloped_method (c : Channel) lib self op rq key elem :
  Enveloped self op rq key elem ->
  method_on c lib self op =
  bind (request_on lib c (method rq) (url rq) (params rq))
       (fun data => validate_python lib (AList elem) (unwrap key data)).
Proof.
  intros [ip |]; destruct c; reflexivity.
Qed.

(** C5: for the stablecoins operation (key "peggedAssets") and the pools
    operation (key "data"), a body that is an object holding the array under
    the key and a body that is the bare array end the same way: with the list
    of the decoded elements, in order, when every element decodes, and else
    with the same validation error. *)
Theorem envelope_unwrapping (c : Channel) lib self op rq key elem
    members items enveloped bare :
  Enveloped self op rq key elem ->
  dict_get key members = Some (JArr items) ->
  answered enveloped c rq (JObj members) ->
  answered bare c rq (JArr items) ->
  trace enveloped (method_on c lib self op) = [(c, rq)]
  /\ run enveloped (method_on c lib self op) = run bare (method_on c lib self op)
  /\ run bare (method_on c lib self op) =
       match validate lib false (AList elem) (JArr items) with
       | inl v => Returned v
       | inr es => Raised (ValidationError (ann_tag (AList elem)) es)
       end
  /\ (forall values,
        Forall2 (fun j v => validate lib false elem j = inl v) items values ->
        run enveloped (method_on c lib self op) = Returned (VList values)).
Proof.
  intros Henv Hkey Henveloped Hbare.
  rewrite (enveloped_method c lib Henv).
  destruct rq as [m u ps]; cbn [method url params].
  assert (E1 : run enveloped
                 (bind (request_on lib c m u ps)
                    (fun data => validate_python lib (AList elem) (unwrap key data))) =
               match validate lib false (AList elem) (JArr items) with
               | inl v => Returned v
               | inr es => Raised (ValidationError (ann_tag (AList elem)) es)
               end).
  { rewrite (run_answered lib _ Henveloped). unfold unwrap. rewrite Hkey.
    apply run_model_validate. }
  assert (E2 : run bare
                 (bind (request_on lib c m u ps)
                    (fun data => validate_python lib (AList elem) (unwrap key data))) =
               match validate lib false (AList elem) (JArr items) with
               | inl v => Returned v
               | inr es => Raised (ValidationError (ann_tag (AList elem)) es)
               end).
  { rewrite (run_answered lib _ Hbare). apply run_model_validate. }
  split; [| split; [| split]].
  - apply trace_fetch. intro d. left. do 3 eexists. reflexivity.
  - now rewrite E1, E2.
  - exact E2.
  - intros values Hall. rewrite E1.
    now rewrite (@validate_list_each lib false elem items values Hall).
Qed.

Lemma envelope_unwrapping_witness :
  let a := Sample.usdt (amounts_json [("peggedUSD", inr (1000 # 1))]) (JInt 0) in
  let b := Sample.usdt (amounts_json [("peggedUSD", inl 7)])
             (amounts_json [("ethereum", inr (1000 # 1))]) in
  let members := [("peggedAssets", JArr [a; b])] in
  let enveloped := Sample.always (Responded (Sample.ok (JObj members))) in
  let bare := Sample.always (Responded (Sample.ok (JArr [a; b]))) in
  let rq := stablecoins_request __init__ None in
  Enveloped __init__ (GetStablecoins None) rq "peggedAssets" models.Stablecoin
  /\ dict_get "peggedAssets" members = Some (JArr [a; b])
  /\ answered enveloped client rq (JObj members)
  /\ answered bare client rq (JArr [a; b])
  /\ run enveloped (get_stablecoins Sample.lib __init__ None) =
     run bare (get_stablecoins Sample.lib __init__ None).
Proof.
  assert (He : forall v, answered (Sample.always (Responded (Sample.ok v))) client
                           (stablecoins_request __init__ None) v).
  { intros v. exists (Sample.ok v). repeat split. }
  split; [constructor |]. split; [reflexivity |].
  split; [apply He |]. split; [apply He |].
  refine (proj1 (proj2 (@envelope_unwrapping client Sample.lib __init__ (GetStablecoins None)
                          _ "peggedAssets" models.Stablecoin _ _ _ _
                          (Enveloped_stablecoins __init__ None) _ (He _) (He _)))).
  reflexivity.
Defined.

(** ** Query parameters *)

Lemma sent_params_fetch lib remote c m u ps (k : JSON -> Prog PyVal) :
  decodes_only k ->
  sent_params remote (bind (request_on lib c m u ps) k) =
  match ps with
  | Some p => p
  | None => []
  end.
Proof.
  intros Hk. unfold sent_params. rewrite trace_fetch by assumption.
  simpl. unfold query. simpl. apply app_nil_r.
Qed.

Lemma sent_urls_fetch lib remote c m u ps (k : JSON -> Prog PyVal) :
  decodes_only k ->
  sent_urls remote (bind (request_on lib c m u ps) k) = [u].
Proof.
  intros Hk. unfold sent_urls. now rewrite trace_fetch.
Qed.

Lemma dict_keys_set V k key (v : V) d :
  In k (dict_keys (dict_set key v d)) -> k = key \/ In k (dict_keys d).
Proof.
  unfold dict_keys. induction d as [| [k' v'] d IH]; simpl.
  - intuition.
  - destruct (String.eqb key k') eqn:E; simpl; intuition.
Qed.

Lemma set_if_int_keys k key x ps :
  In k (dict_keys (set_if_int key x ps)) -> k = key \/ In k (dict_keys ps).
Proof.
  unfold set_if_int. destruct (truthy_int x); [apply dict_keys_set | auto].
Qed.

Lemma set_if_str_keys k key x ps :
  In k (dict_keys (set_if_str key x ps)) -> k = key \/ In k (dict_keys ps).
Proof.
  unfold set_if_str. destruct (truthy_str x); [apply dict_keys_set | auto].
Qed.

(** Unfolding of the two forms of an operation down to its request. *)
Ltac expose_request c :=
  destruct c; cbv beta iota delta [method_on blocking non_blocking];
  cbv beta iota zeta delta
    [get_protocols get_protocols_async get_protocol get_protocol_async
     get_historical_chain_tvl get_historical_chain_tvl_async get_chains get_chains_async
     get_block get_block_async get_stablecoin_historical get_stablecoin_historical_async
     get_stablecoin_chains get_stablecoin_chains_async get_stablecoin_prices
     get_stablecoin_prices_async get_pools get_pools_async get_pool_chart
     get_pool_chart_async
     get_current_prices get_current_prices_async get_historical_prices
     get_historical_prices_async get_batch_historical_prices
     get_batch_historical_prices_async get_price_chart get_price_chart_async
     get_price_percentage_change get_price_percentage_change_async
     get_first_prices get_first_prices_async get_stablecoins get_stablecoins_async
     get_stablecoin_charts get_stablecoin_charts_async get_dexs get_dexs_async
     get_dex_summary get_dex_summary_async get_options_dexs get_options_dexs_async
     get_options_dex_summary get_options_dex_summary_async get_fees get_fees_async
     get_fee_summary get_fee_summary_async _request _async_request validate_python].

Ltac absent_key :=
  unfold sent_keys;
  rewrite sent_params_fetch by (apply validating_decodes_only with (f := fun d => d));
  repeat match goal with
         | |- context [set_if_int ?k None ?ps] => change (set_if_int k None ps) with ps
         | |- context [set_if_str ?k None ?ps] => change (set_if_str k None ps) with ps
         end;
  intros Hin;
  repeat (first [apply set_if_str_keys in Hin | apply set_if_int_keys in Hin];
          destruct Hin as [Hin | Hin]; [discriminate Hin |]);
  simpl in Hin; intuition discriminate.

Ltac default_sent :=
  rewrite sent_params_fetch by
    (first [apply validating_decodes_only with (f := fun d => d)
           | apply validating_decodes_only]);
  reflexivity.

(** C7, as the code has it: an optional parameter whose default is [None]
    is absent from the query string when the caller leaves it out; an
    optional parameter with a default value is sent with that value. *)
Theorem unsupplied_optional_parameters (c : Channel) lib self remote :
  (forall coins e n p w,
     ~ In "start" (sent_keys remote (method_on c lib self (GetPriceChart coins None e n p w))))
  /\ (forall coins s n p w,
     ~ In "end" (sent_keys remote (method_on c lib self (GetPriceChart coins s None n p w))))
  /\ (forall coins s e p w,
     ~ In "span" (sent_keys remote (method_on c lib self (GetPriceChart coins s e None p w))))
  /\ (forall coins s e n w,
     ~ In "period" (sent_keys remote (method_on c lib self (GetPriceChart coins s e n None w))))
  /\ (forall coins s e n p,
     ~ In "searchWidth"
         (sent_keys remote (method_on c lib self (GetPriceChart coins s e n p None))))
  /\ (forall coins,
     ~ In "searchWidth"
         (sent_keys remote (method_on c lib self (GetBatchHistoricalPrices coins None))))
  /\ (forall coins f p,
     ~ In "timestamp"
         (sent_keys remote (method_on c lib self (GetPricePercentageChange coins None f p))))
  /\ (forall chain,
     ~ In "stablecoin"
         (sent_keys remote (method_on c lib self (GetStablecoinCharts chain None))))
  /\ (forall coins,
     sent_params remote (method_on c lib self (GetCurrentPrices coins None)) =
     [("searchWidth", PStr "4h")])
  /\ (forall t coins,
     sent_params remote (method_on c lib self (GetHistoricalPrices t coins None)) =
     [("searchWidth", PStr "4h")])
  /\ (forall coins,
     sent_params remote (method_on c lib self (GetPricePercentageChange coins None None None)) =
     [("lookForward", PBool false); ("period", PStr "24h")])
  /\ sent_params remote (method_on c lib self (GetStablecoins None)) =
     [("includePrices", PBool true)]
  /\ (forall chain,
     sent_params remote (method_on c lib self (GetDexs chain None None)) =
     [("excludeTotalDataChart", PBool true); ("excludeTotalDataChartBreakdown", PBool true)])
  /\ (forall slug,
     sent_params remote (method_on c lib self (GetDexSummary slug None None)) =
     [("excludeTotalDataChart", PBool true); ("excludeTotalDataChartBreakdown", PBool true)])
  /\ (forall chain,
     sent_params remote (method_on c lib self (GetOptionsDexs chain None None None)) =
     [("excludeTotalDataChart", PBool true); ("excludeTotalDataChartBreakdown", PBool true);
      ("dataType", PStr "dailyNotionalVolume")])
  /\ (forall slug,
     sent_params remote (method_on c lib self (GetOptionsDexSummary slug None)) =
     [("dataType", PStr "dailyNotionalVolume")])
  /\ (forall chain,
     sent_params remote (method_on c lib self (GetFees chain None None None)) =
     [("excludeTotalDataChart", PBool true); ("excludeTotalDataChartBreakdown", PBool true);
      ("dataType", PStr "dailyFees")])
  /\ (forall slug,
     sent_params remote (method_on c lib self (GetFeeSummary slug None)) =
     [("dataType", PStr "dailyFees")]).
Proof.
  repeat match goal with |- _ /\ _ => split end; intros.
  1-8: expose_request c; absent_key.
  all: expose_request c; default_sent.
Qed.

(** [get_current_prices] called without [search_width] sends
    [searchWidth=4h]. *)
Lemma default_search_width_sent :
  trace (Sample.always (Responded (Sample.ok (JObj [("coins", JObj [])]))))
    (get_current_prices Sample.lib __init__ ["coingecko:ethereum"] None) =
  [(client, {| method := "GET";
               url := "https://coins.llama.fi/prices/current/coingecko:ethereum";
               params := Some [("searchWidth", PStr "4h")] |})].
Proof. reflexivity. Qed.

(** ** Path segments *)

Lemma join_comma_joined coins : coins <> [] -> comma_joined coins (join "," coins).
Proof.
  intros Hne. induction coins as [| a rest IH]; [congruence |].
  destruct rest as [| b rest].
  - simpl. constructor.
  - change (join "," (a :: b :: rest)) with (a ++ "," ++ join "," (b :: rest)).
    constructor. apply IH. discriminate.
Qed.

Ltac one_url :=
  rewrite sent_urls_fetch by (apply validating_decodes_only with (f := fun d => d));
  reflexivity.

(** C8: the price-family methods put the identifiers, joined with single
    commas in the caller's order and otherwise untouched, after the fixed
    prefix of their path. *)
Theorem coins_path_segment (c : Channel) lib self remote coins :
  coins <> [] ->
  comma_joined coins (join "," coins)
  /\ (forall w,
        sent_urls remote (method_on c lib self (GetCurrentPrices coins w)) =
        [COINS_URL self ++ "/prices/current/" ++ join "," coins])
  /\ (forall t w,
        sent_urls remote (method_on c lib self (GetHistoricalPrices t coins w)) =
        [COINS_URL self ++ "/prices/historical/" ++ str_of_int t ++ "/" ++ join "," coins])
  /\ (forall s e n p w,
        sent_urls remote (method_on c lib self (GetPriceChart coins s e n p w)) =
        [COINS_URL self ++ "/chart/" ++ join "," coins])
  /\ (forall t f p,
        sent_urls remote (method_on c lib self (GetPricePercentageChange coins t f p)) =
        [COINS_URL self ++ "/percentage/" ++ join "," coins])
  /\ sent_urls remote (method_on c lib self (GetFirstPrices coins)) =
       [COINS_URL self ++ "/prices/first/" ++ join "," coins].
Proof.
  intros Hne. split; [now apply join_comma_joined |].
  repeat match goal with |- _ /\ _ => split end; intros; expose_request c; one_url.
Qed.

Lemma coins_path_segment_witness :
  let coins := ["ethereum:0xabc"; "coingecko:bitcoin"] in
  let remote := Sample.always (Responded (Sample.ok (JObj [("coins", JObj [])]))) in
  coins <> []
  /\ comma_joined coins "ethereum:0xabc,coingecko:bitcoin"
  /\ sent_urls remote (get_current_prices Sample.lib __init__ coins None) =
       ["https://coins.llama.fi/prices/current/ethereum:0xabc,coingecko:bitcoin"].
Proof.
  assert (Hne : ["ethereum:0xabc"; "coingecko:bitcoin"] <> @nil string) by discriminate.
  split; [exact Hne |].
  pose proof (@coins_path_segment client Sample.lib __init__
                (Sample.always (Responded (Sample.ok (JObj [("coins", JObj [])]))))
                ["ethereum:0xabc"; "coingecko:bitcoin"] Hne) as H.
  split; [exact (proj1 H) | exact (proj1 (proj2 H) None)].
Defined.

(** ** Zero as an optional argument *)

(** C9: an optional integer given as 0 is dropped by the truthiness test,
    so the method is the very one the caller gets by leaving the argument
    out: same request, same decoding. *)
Theorem zero_is_omitted (c : Channel) lib self :
  (forall coins e n p w,
     method_on c lib self (GetPriceChart coins (Some 0) e n p w) =
     method_on c lib self (GetPriceChart coins None e n p w))
  /\ (forall coins s n p w,
     method_on c lib self (GetPriceChart coins s (Some 0) n p w) =
     method_on c lib self (GetPriceChart coins s None n p w))
  /\ (forall coins s e p w,
     method_on c lib self (GetPriceChart coins s e (Some 0) p w) =
     method_on c lib self (GetPriceChart coins s e None p w))
  /\ (forall coins f p,
     method_on c lib self (GetPricePercentageChange coins (Some 0) f p) =
     method_on c lib self (GetPricePercentageChange coins None f p))
  /\ (forall chain,
     method_on c lib self (GetStablecoinCharts chain (Some 0)) =
     method_on c lib self (GetStablecoinCharts chain None))
  /\ (forall remote coins,
     trace remote (method_on c lib self (GetPriceChart coins (Some 0) (Some 0) (Some 0) None None)) =
     [(c, {| method := "GET"; url := COINS_URL self ++ "/chart/" ++ join "," coins;
             params := Some [] |})]).
Proof.
  repeat match goal with |- _ /\ _ => split end; intros; destruct c; try reflexivity.
  all: expose_request client; cbv beta iota delta [get_price_chart get_price_chart_async];
       apply trace_fetch; apply validating_decodes_only with (f := fun d => d).
Qed.

(** ** The simplified-TVL operation *)

Lemma every_other_operation_validates (c : Channel) lib self remote s op :
  (forall rq, answered remote c rq (JStr s)) ->
  (forall slug, op <> GetProtocolTvl slug) ->
  exists title errors,
    run remote (method_on c lib self op) = Raised (ValidationError title errors).
Proof.
  intros Hremote Hop.
  destruct op; try (now elim (Hop protocol_slug)); expose_request c.
  all: match goal with
       | |- exists _ _, run _ (bind (request_on _ ?c ?m ?u ?ps) ?k) = _ =>
           rewrite (@run_answered lib remote c m u ps (JStr s) k (Hremote _))
       end.
  all: do 2 eexists; reflexivity.
Qed.

(** C10: the simplified-TVL methods return the parsed body of a 2xx
    response as it is, whatever its shape; none of their failures is a
    validation error; every other operation rejects a body that is a JSON
    string. *)
Theorem protocol_tvl_unvalidated (c : Channel) lib self remote slug v :
  answered remote c (tvl_request self slug) v ->
  run remote (protocol_tvl_on c lib self slug) = Returned v
  /\ (forall remote' e,
        run remote' (protocol_tvl_on c lib self slug) = Raised e ->
        error_kind e <> Some ValidationErrorKind)
  /\ (forall remote' s op,
        (forall rq, answered remote' c rq (JStr s)) ->
        (forall slug', op <> GetProtocolTvl slug') ->
        exists title errors,
          run remote' (method_on c lib self op) = Raised (ValidationError title errors)).
Proof.
  intros (res & Hreply & Hok & Hbody).
  assert (Hrun : forall remote',
            run remote' (protocol_tvl_on c lib self slug) =
            request_outcome lib (tvl_request self slug) (remote' c (tvl_request self slug))).
  { intros remote'. destruct c; apply run_request_on. }
  split; [| split].
  - rewrite Hrun, Hreply. simpl. now rewrite Hok, Hbody.
  - intros remote' e He. rewrite Hrun in He. unfold request_outcome in He.
    destruct (remote' c _) as [res' | t].
    + destruct (is_success res').
      * destruct (body res'); [discriminate |]. injection He as <-. discriminate.
      * injection He as <-. discriminate.
    + injection He as <-. discriminate.
  - intros remote' s op. apply every_other_operation_validates.
Qed.

Lemma protocol_tvl_unvalidated_witness :
  let v := JObj [("message", JStr "not a number")] in
  let remote := Sample.always (Responded (Sample.ok v)) in
  answered remote client (tvl_request __init__ "aave") v
  /\ run remote (get_protocol_tvl Sample.lib __init__ "aave") = Returned v.
Proof.
  assert (H : answered
                (Sample.always (Responded (Sample.ok (JObj [("message", JStr "not a number")]))))
                client (tvl_request __init__ "aave")
                (JObj [("message", JStr "not a number")])).
  { eexists. repeat split. }
  split; [exact H |].
  exact (proj1 (@protocol_tvl_unvalidated client Sample.lib __init__ _ "aave" _ H)).
Defined.


(** * Further properties of the client and of the models *)

Ltac decoder_shape :=
  intro; first [left; do 3 eexists; reflexivity | right; reflexivity].

(** ** One request per call *)

(** A call sends exactly one request, a GET on the client of its form,
    whatever the service replies: nothing is retried and nothing else is
    fetched. *)
Theorem one_get_per_call (c : Channel) lib self op :
  exists rq, method rq = "GET" /\
    forall remote, trace remote (method_on c lib self op) = [(c, rq)].
Proof.
  destruct (method_shape c lib self op) as (u & ps & k & Hk & ->).
  exists {| method := "GET"; url := u; params := ps |}.
  split; [reflexivity |]. intros remote. now apply trace_fetch.
Qed.

(** The URL of every operation is the host of its group followed by a path
    that starts with a slash; the host does not depend on the arguments. *)
Theorem host_binding (c : Channel) lib self op :
  exists path, forall remote,
    sent_urls remote (method_on c lib self op) = [host_of self op ++ String "/" path].
Proof.
  destruct op; expose_request c;
    cbv beta iota zeta delta [unvalidated get_protocol_tvl get_protocol_tvl_async
                                _request _async_request with_chain];
    try match goal with
        | |- context [truthy_str ?x] => destruct (truthy_str x)
        end;
    eexists; intros remote; (rewrite sent_urls_fetch by decoder_shape); reflexivity.
Qed.

(** A call returns a value only when its request was answered with a 2xx
    response whose body is JSON: after a transport failure, a status outside
    2xx or a body that is not JSON there is no fallback value. *)
Theorem returns_only_on_success (c : Channel) lib self remote op v :
  run remote (method_on c lib self op) = Returned v ->
  exists rq d,
    trace remote (method_on c lib self op) = [(c, rq)] /\ answered remote c rq d.
Proof.
  destruct (method_shape c lib self op) as (u & ps & k & Hk & ->).
  intros Hrun. rewrite run_fetch in Hrun. unfold request_outcome in Hrun.
  exists {| method := "GET"; url := u; params := ps |}.
  destruct (remote c _) as [res |] eqn:Hreply; [| discriminate].
  destruct (is_success res) eqn:Hok; [| discriminate].
  destruct (body res) as [d | raw] eqn:Hbody; [| discriminate].
  exists d. split; [now apply trace_fetch |].
  exists res. auto.
Qed.

Lemma returns_only_on_success_witness :
  let remote := Sample.block_service in
  let v := VModel "Block" [("height", VInt 18573000); ("timestamp", VInt 1700000003)] in
  run remote (method_on client Sample.lib __init__ (GetBlock "ethereum" 1700000000)) =
    Returned v
  /\ exists rq d,
       trace remote (method_on client Sample.lib __init__ (GetBlock "ethereum" 1700000000)) =
         [(client, rq)] /\ answered remote client rq d.
Proof.
  split; [reflexivity |].
  apply (@returns_only_on_success client Sample.lib __init__ Sample.block_service
           (GetBlock "ethereum" 1700000000)
           (VModel "Block" [("height", VInt 18573000); ("timestamp", VInt 1700000003)])).
  reflexivity.
Defined.


(** ** Collections *)

Lemma list_values_each (rs : list Validated) vs :
  list_values rs = Some vs -> Forall2 (fun r v => r = inl v) rs vs.
Proof.
  revert vs. induction rs as [| [v | es] rs IH]; simpl; intros vs H.
  - injection H as <-. constructor.
  - destruct (list_values rs) as [vs' |]; [| discriminate].
    injection H as <-. constructor; auto.
  - discriminate.
Qed.

(** A list annotation accepts an array only element by element: the result
    has one decoded value per element of the array, in the order of the
    array. *)
Lemma validate_list_inv lib strict elem items v :
  validate lib strict (AList elem) (JArr items) = inl v ->
  exists values,
    v = VList values /\
    Forall2 (fun j x => validate lib strict elem j = inl x) items values.
Proof.
  simpl. unfold collect_list.
  destruct (list_values (map (validate lib strict elem) items)) as [vs |] eqn:E;
    [| discriminate].
  intros H. injection H as <-. exists vs. split; [reflexivity |].
  apply list_values_each in E.
  remember (map (validate lib strict elem) items) as rs eqn:Hrs.
  revert items Hrs. induction E as [| r x rs vs Hr _ IH]; intros [| j items] Hrs;
    simpl in Hrs; try discriminate; constructor.
  - injection Hrs as -> _. exact Hr.
  - injection Hrs as _ ->. now apply IH.
Qed.

(** No element is dropped: when the body of a 2xx response is a bare array
    and the call returns, the result is a list with exactly as many
    elements as the array (for the simplified-TVL operation, the array
    itself). *)
Theorem collection_length_preserved (c : Channel) lib self remote op rq items v :
  trace remote (method_on c lib self op) = [(c, rq)] ->
  answered remote c rq (JArr items) ->
  run remote (method_on c lib self op) = Returned v ->
  (exists values, v = VList values /\ length values = length items)
  \/ v = VRaw (JArr items).
Proof.
  intros Htrace Hans Hrun.
  assert (Hlist : forall elem,
            run remote (model_validate lib (AList elem) (JArr items)) = Returned v ->
            exists values, v = VList values /\ length values = length items).
  { intros elem H. rewrite run_model_validate in H.
    destruct (validate lib false (AList elem) (JArr items)) as [x |] eqn:E; [| discriminate].
    injection H as ->. destruct (validate_list_inv _ _ _ _ E) as (values & -> & Hall).
    exists values. split; [reflexivity |]. symmetry. exact (Forall2_length Hall). }
  assert (Hmodel : forall cls fs,
            run remote (model_validate lib (AModel cls fs) (JArr items)) = Returned v -> False).
  { intros cls fs H. rewrite run_model_validate in H. discriminate. }
  revert Htrace Hrun.
  destruct op; expose_request c;
    cbv beta iota zeta delta [unvalidated get_protocol_tvl get_protocol_tvl_async
                                _request _async_request];
    (rewrite trace_fetch by decoder_shape); intros Htrace; injection Htrace as <-;
    match goal with
    | |- run _ (bind (request_on _ ?c ?m ?u ?ps) ?k) = _ -> _ =>
        rewrite (@run_answered lib remote c m u ps (JArr items) k Hans)
    end;
    intros Hrun;
    try (left; eapply Hlist; exact Hrun);
    try (exfalso; eapply Hmodel; exact Hrun).
  all: right; simpl in Hrun; congruence.
Qed.

Lemma collection_length_preserved_witness :
  let a := Sample.usdt (amounts_json [("peggedUSD", inr (1000 # 1))]) (JInt 0) in
  let remote := Sample.always (Responded (Sample.ok (JArr [a; a; a]))) in
  let rq := stablecoins_request __init__ None in
  let v := match run remote (get_stablecoins Sample.lib __init__ None) with
           | Returned x => x
           | Raised _ => VNone
           end in
  trace remote (method_on client Sample.lib __init__ (GetStablecoins None)) = [(client, rq)]
  /\ answered remote client rq (JArr [a; a; a])
  /\ run remote (method_on client Sample.lib __init__ (GetStablecoins None)) = Returned v
  /\ ((exists values, v = VList values /\ length values = 3%nat) \/ v = VRaw (JArr [a; a; a])).
Proof.
  intros a remote rq v.
  assert (Ha : answered remote client rq (JArr [a; a; a])).
  { eexists. repeat split. }
  split; [reflexivity |]. split; [exact Ha |]. split; [reflexivity |].
  exact (@collection_length_preserved client Sample.lib __init__ remote (GetStablecoins None)
           rq [a; a; a] v eq_refl Ha eq_refl).
Defined.

(** An object that lacks the envelope key is handed to the list validator
    as it is and rejected as not being a list, for both enveloped
    endpoints. *)
Theorem envelope_key_missing (c : Channel) lib self remote op rq key elem members :
  Enveloped self op rq key elem ->
  dict_get key members = None ->
  answered remote c rq (JObj members) ->
  run remote (method_on c lib self op) =
  Raised (ValidationError (ann_tag (AList elem)) [{| loc := []; etype := "list_type" |}]).
Proof.
  intros Henv Hkey Hans.
  rewrite (enveloped_method c lib Henv).
  destruct rq as [m u ps]; cbn [method url params].
  rewrite (run_answered lib _ Hans). unfold unwrap. rewrite Hkey.
  apply run_model_validate.
Qed.

Lemma envelope_key_missing_witness :
  let members := [("status", JStr "error"); ("message", JStr "rate limited")] in
  let remote := Sample.always (Responded (Sample.ok (JObj members))) in
  Enveloped __init__ GetPools (pools_request __init__) "data" models.Pool
  /\ dict_get "data" members = None
  /\ answered remote client (pools_request __init__) (JObj members)
  /\ run remote (get_pools Sample.lib __init__) =
     Raised (ValidationError "list[Pool]" [{| loc := []; etype := "list_type" |}]).
Proof.
  intros members remote.
  assert (Ha : answered remote client (pools_request __init__) (JObj members)).
  { eexists. repeat split. }
  split; [constructor |]. split; [reflexivity |]. split; [exact Ha |].
  exact (@envelope_key_missing client Sample.lib __init__ remote GetPools
           (pools_request __init__) "data" models.Pool members
           (Enveloped_pools __init__) eq_refl Ha).
Defined.

(** ** Models *)

(** Decoding a model looks at the body only under the names of the
    declared fields: keys the class does not declare are ignored, and so is
    the order of the keys. *)
Theorem model_reads_declared_fields_only lib strict cls fs members members' :
  (forall f, In f fs -> dict_get (fname f) members = dict_get (fname f) members') ->
  validate lib strict (AModel cls fs) (JObj members) =
  validate lib strict (AModel cls fs) (JObj members').
Proof.
  intros Hsame. rewrite !validate_model_eq. f_equal.
  unfold field_results. apply map_ext_in. intros f Hf.
  unfold field_result. now rewrite (Hsame f Hf).
Qed.

Lemma model_reads_declared_fields_only_witness :
  let members := [("height", JInt 1); ("timestamp", JInt 2)] in
  let members' := [("note", JStr "x"); ("timestamp", JInt 2); ("height", JInt 1)] in
  (forall f, In f (model_fields models.Block) ->
     dict_get (fname f) members = dict_get (fname f) members')
  /\ validate Sample.lib false models.Block (JObj members) =
     validate Sample.lib false models.Block (JObj members').
Proof.
  intros members members'.
  assert (H : forall f, In f (model_fields models.Block) ->
                dict_get (fname f) members = dict_get (fname f) members').
  { intros f [<- | [<- | []]]; reflexivity. }
  split; [exact H |].
  exact (@model_reads_declared_fields_only Sample.lib false "Block"
           (model_fields models.Block) members members' H).
Defined.

Lemma item_values_keys (rs : list (string * Validated)) attrs :
  item_values rs = Some attrs -> map fst attrs = map fst rs.
Proof.
  revert attrs. induction rs as [| [k [v | es]] rs IH]; simpl; intros attrs H.
  - now injection H as <-.
  - destruct (item_values rs) as [rest |]; [| discriminate].
    injection H as <-. simpl. f_equal. now apply IH.
  - discriminate.
Qed.

Lemma field_results_keys lib strict members fs :
  map fst (field_results lib strict members fs) = map (@fname Ann) fs.
Proof.
  unfold field_results. rewrite map_map. reflexivity.
Qed.

(** A decoded model is an instance of its class that carries every
    declared attribute exactly once, in the order of the class, whatever
    keys the body had. *)
Theorem model_attributes_are_fields lib strict cls fs members v :
  validate lib strict (AModel cls fs) (JObj members) = inl v ->
  exists attrs, v = VModel cls attrs /\ map fst attrs = map (@fname Ann) fs.
Proof.
  rewrite validate_model_eq. unfold collect_items.
  destruct (item_values (field_results lib strict members fs)) as [attrs |] eqn:E;
    [| discriminate].
  intros H. injection H as <-. exists attrs. split; [reflexivity |].
  rewrite (item_values_keys _ E). apply field_results_keys.
Qed.

Lemma model_attributes_are_fields_witness :
  let members := [("extra", JNull); ("timestamp", JInt 2); ("height", JInt 1)] in
  let v := VModel "Block" [("height", VInt 1); ("timestamp", VInt 2)] in
  validate Sample.lib false models.Block (JObj members) = inl v
  /\ exists attrs, v = VModel "Block" attrs /\
       map fst attrs = map (@fname Ann) (model_fields models.Block).
Proof.
  intros members v. split; [reflexivity |].
  exact (@model_attributes_are_fields Sample.lib false "Block"
           (model_fields models.Block) members v eq_refl).
Defined.

Lemma item_errors_in k (r : Validated) e (rs : list (string * Validated)) :
  In (k, r) rs -> In e (errors_of (Key k) r) -> In e (item_errors rs).
Proof.
  induction rs as [| [k' r'] rs IH]; simpl; [tauto |].
  intros [H | H] He; apply in_or_app.
  - injection H as -> ->. now left.
  - right. now apply IH.
Qed.

Lemma item_values_none k es (rs : list (string * Validated)) :
  In (k, inr es) rs -> item_values rs = None.
Proof.
  induction rs as [| [k' [v | es']] rs IH]; simpl; [tauto | |].
  - intros [H | H]; [discriminate |]. now rewrite (IH H).
  - reflexivity.
Qed.

(** A body that lacks a field without default does not decode: the
    validation error names the field, with the code "missing". *)
Theorem required_field_missing lib strict cls fs k a members :
  In (Field k a Required) fs ->
  dict_get k members = None ->
  exists errors,
    validate lib strict (AModel cls fs) (JObj members) = inr errors /\
    In {| loc := [Key k]; etype := "missing" |} errors.
Proof.
  intros Hin Hget. rewrite validate_model_eq. unfold collect_items.
  assert (Hr : In (k, invalid "missing") (field_results lib strict members fs)).
  { unfold field_results.
    apply (in_map (fun f => field_result (validate lib strict (fann f)) members
                              (fname f) (fdefault f))) in Hin.
    unfold field_result in Hin at 1. simpl in Hin. now rewrite Hget in Hin. }
  rewrite (item_values_none _ _ _ Hr). eexists. split; [reflexivity |].
  apply (item_errors_in _ _ _ _ Hr). simpl. now left.
Qed.

Lemma required_field_missing_witness :
  let members := [("height", JInt 18573000)] in
  In (Field "timestamp" AInt Required) (model_fields models.Block)
  /\ dict_get "timestamp" members = None
  /\ exists errors,
       validate Sample.lib false models.Block (JObj members) = inr errors /\
       In {| loc := [Key "timestamp"]; etype := "missing" |} errors.
Proof.
  intros members.
  assert (Hin : In (Field "timestamp" AInt Required) (model_fields models.Block)).
  { simpl. auto. }
  split; [exact Hin |]. split; [reflexivity |].
  exact (@required_field_missing Sample.lib false "Block" (model_fields models.Block)
           "timestamp" AInt members Hin eq_refl).
Defined.

Lemma item_values_lookup (rs : list (string * Validated)) attrs k v :
  NoDup (map fst rs) ->
  In (k, inl v) rs ->
  item_values rs = Some attrs ->
  dict_get k attrs = Some v.
Proof.
  revert attrs. induction rs as [| [k' [v' | es]] rs IH]; simpl; intros attrs Hnd Hin H;
    [contradiction | | discriminate].
  destruct (item_values rs) as [rest |] eqn:E; [| discriminate].
  injection H as <-. inversion Hnd as [| ? ? Hfresh Hnd']; subst. simpl.
  destruct Hin as [Heq | Hin].
  - injection Heq as -> ->. now rewrite String.eqb_refl.
  - assert (Hne : String.eqb k k' = false).
    { apply String.eqb_neq. intros ->. apply Hfresh.
      apply (in_map fst) in Hin. exact Hin. }
    rewrite Hne. now apply IH.
Qed.

(** A field with a default that the body leaves out decodes to its default
    ([None] for the [Optional] fields, the empty list for the two [tvl]
    series), never to an error. *)
Theorem absent_field_takes_default lib strict cls fs k a dv members attrs :
  NoDup (map (@fname Ann) fs) ->
  In (Field k a (Default dv)) fs ->
  dict_get k members = None ->
  validate lib strict (AModel cls fs) (JObj members) = inl (VModel cls attrs) ->
  dict_get k attrs = Some dv.
Proof.
  intros Hnd Hin Hget. rewrite validate_model_eq. unfold collect_items.
  destruct (item_values (field_results lib strict members fs)) as [attrs0 |] eqn:E;
    [| discriminate].
  intros H. injection H as <-.
  apply (@item_values_lookup (field_results lib strict members fs)); auto.
  - now rewrite field_results_keys.
  - unfold field_results.
    apply (in_map (fun f => field_result (validate lib strict (fann f)) members
                              (fname f) (fdefault f))) in Hin.
    unfold field_result in Hin at 1. simpl in Hin. now rewrite Hget in Hin.
Qed.

Lemma absent_field_takes_default_witness :
  let members :=
    match Sample.usdt (amounts_json [("peggedUSD", inr (1000 # 1))]) JNull with
    | JObj ms => ms
    | _ => []
    end in
  let attrs :=
    match Sample.usdt_value (amounts_value [("peggedUSD", inr (1000 # 1))]) VNone with
    | VModel _ ats => ats
    | _ => []
    end in
  NoDup (map (@fname Ann) (model_fields models.Stablecoin))
  /\ In (Field "chainCirculating" (AOptional (ADict (ADict (AUnion (ADict AFloat) AInt))))
           (Default VNone)) (model_fields models.Stablecoin)
  /\ dict_get "chainCirculating" members = None
  /\ validate Sample.lib false models.Stablecoin (JObj members) =
       inl (VModel "Stablecoin" attrs)
  /\ dict_get "chainCirculating" attrs = Some VNone.
Proof.
  intros members attrs.
  assert (Hin : In (Field "chainCirculating"
                      (AOptional (ADict (ADict (AUnion (ADict AFloat) AInt))))
                      (Default VNone)) (model_fields models.Stablecoin)).
  { simpl. auto 20. }
  split; [exact Stablecoin_fields_nodup |]. split; [exact Hin |].
  split; [reflexivity |]. split; [reflexivity |].
  exact (@absent_field_takes_default Sample.lib false "Stablecoin"
           (model_fields models.Stablecoin) "chainCirculating" _ VNone members attrs
           Stablecoin_fields_nodup Hin eq_refl eq_refl).
Defined.

Lemma field_result_in lib strict members fs k a d v :
  In (Field k a d) fs ->
  dict_get k members = Some v ->
  In (k, validate lib strict a v) (field_results lib strict members fs).
Proof.
  intros Hin Hget. unfold field_results.
  apply (in_map (fun f => field_result (validate lib strict (fann f)) members
                            (fname f) (fdefault f))) in Hin.
  unfold field_result in Hin at 1. simpl in Hin. now rewrite Hget in Hin.
Qed.

Lemma rejected_field lib strict cls fs k a d v es members :
  In (Field k a d) fs ->
  dict_get k members = Some v ->
  validate lib strict a v = inr es ->
  exists errors,
    validate lib strict (AModel cls fs) (JObj members) = inr errors /\
    forall e, In e es -> In (under (Key k) e) errors.
Proof.
  intros Hin Hget Hv. rewrite validate_model_eq. unfold collect_items.
  pose proof (@field_result_in lib strict members fs k a d v Hin Hget) as Hr.
  rewrite Hv in Hr. rewrite (item_values_none _ _ _ Hr).
  eexists. split; [reflexivity |].
  intros e He. apply (item_errors_in _ _ _ _ Hr). simpl. now apply in_map.
Qed.

(** A value that the annotation of a field rejects makes the whole record
    invalid, and every error of the value is reported under the name of the
    field: no field is dropped or replaced by a default to save the
    record. *)
Theorem invalid_field_rejects_record lib strict cls fs k a d v es members :
  In (Field k a d) fs ->
  dict_get k members = Some v ->
  validate lib strict a v = inr es ->
  exists errors,
    validate lib strict (AModel cls fs) (JObj members) = inr errors /\
    forall e, In e es -> In (under (Key k) e) errors.
Proof.
  apply rejected_field.
Qed.

Lemma invalid_field_rejects_record_witness :
  let members := [("height", JStr "high"); ("timestamp", JInt 2)] in
  let es := [{| loc := []; etype := "int_parsing" |}] in
  In (Field "height" AInt Required) (model_fields models.Block)
  /\ dict_get "height" members = Some (JStr "high")
  /\ validate Sample.lib false AInt (JStr "high") = inr es
  /\ exists errors,
       validate Sample.lib false models.Block (JObj members) = inr errors /\
       forall e, In e es -> In (under (Key "height") e) errors.
Proof.
  intros members es.
  assert (Hin : In (Field "height" AInt Required) (model_fields models.Block)).
  { simpl. auto. }
  split; [exact Hin |]. split; [reflexivity |]. split; [reflexivity |].
  exact (@invalid_field_rejects_record Sample.lib false "Block" (model_fields models.Block)
           "height" AInt Required (JStr "high") es members Hin eq_refl eq_refl).
Defined.

(** The listing model and the detail model disagree on [tvl]: a record
    whose [tvl] is a number, as [/protocols] gives it, is rejected by
    [ProtocolDetails], and a record whose [tvl] is a series, as
    [/protocol/{slug}] gives it, is rejected by [Protocol]. *)
Theorem tvl_shapes_exclusive lib listing detail x items :
  dict_get "tvl" listing = Some (amount_json x) ->
  dict_get "tvl" detail = Some (JArr items) ->
  (exists errors,
     validate lib false models.ProtocolDetails (JObj listing) = inr errors /\
     In {| loc := [Key "tvl"]; etype := "list_type" |} errors)
  /\ (exists errors,
        validate lib false models.Protocol (JObj detail) = inr errors /\
        In {| loc := [Key "tvl"]; etype := "float_type" |} errors).
Proof.
  intros Hlisting Hdetail. split.
  - destruct (@rejected_field lib false "ProtocolDetails"
                (model_fields models.ProtocolDetails) "tvl"
                (AList models.ProtocolHistoricalTvl) (Default (VList []))
                (amount_json x) [{| loc := []; etype := "list_type" |}] listing)
      as (errors & Hv & Hin); auto.
    + simpl. auto 20.
    + destruct x; reflexivity.
    + exists errors. split; [exact Hv |]. apply (Hin _ (or_introl eq_refl)).
  - destruct (@rejected_field lib false "Protocol"
                (model_fields models.Protocol) "tvl"
                (AOptional AFloat) (Default VNone)
                (JArr items) [{| loc := []; etype := "float_type" |}] detail)
      as (errors & Hv & Hin); auto.
    + simpl. auto 20.
    + exists errors. split; [exact Hv |]. apply (Hin _ (or_introl eq_refl)).
Qed.

Lemma tvl_shapes_exclusive_witness :
  let listing := [("id", JStr "1"); ("tvl", JFloat (5 # 2))] in
  let detail := [("id", JStr "1"); ("tvl", JArr [])] in
  dict_get "tvl" listing = Some (amount_json (inr (5 # 2)))
  /\ dict_get "tvl" detail = Some (JArr [])
  /\ exists errors,
       validate Sample.lib false models.ProtocolDetails (JObj listing) = inr errors /\
       In {| loc := [Key "tvl"]; etype := "list_type" |} errors.
Proof.
  intros listing detail. split; [reflexivity |]. split; [reflexivity |].
  exact (proj1 (@tvl_shapes_exclusive Sample.lib listing detail (inr (5 # 2)) []
                  eq_refl eq_refl)).
Defined.

(** ** Charts *)

Lemma chart_row lib row :
  validate lib false (AList (AUnion AInt AFloat)) (JArr (map amount_json row)) =
  inl (VList (map amount_value row)).
Proof.
  apply validate_list_each.
  induction row as [| [n | q] row IH]; simpl; constructor; auto.
Qed.

(** The chart fields of the overview and summary models decode row by row
    and cell by cell: a row keeps its length, an integer cell stays an [int]
    and a cell written with a fraction or exponent stays a [float], also when
    its value is a whole number. *)
Theorem chart_cells_keep_kind lib rows :
  field_ann models.DexOverview "totalDataChart" = Some chart_ann
  /\ field_ann models.FeeOverview "totalDataChartBreakdown" = Some chart_ann
  /\ validate lib false chart_ann (chart_json rows) = inl (chart_value rows).
Proof.
  split; [reflexivity |]. split; [reflexivity |].
  unfold chart_ann, chart_json, chart_value. apply validate_list_each.
  induction rows as [| row rows IH]; simpl; constructor; auto.
  apply chart_row.
Qed.

(** ** Query parameters, continued *)

(** The query of the price-chart operation, key by key: each of the five
    optional arguments appears under its API name with its value unchanged
    exactly when it is truthy (an integer other than 0, negative ones
    included, a string other than the empty one), and there is no other
    key. *)
Theorem price_chart_query (c : Channel) lib self remote coins s e n p w :
  let ps := sent_params remote (method_on c lib self (GetPriceChart coins s e n p w)) in
  dict_get "start" ps = option_map PInt (truthy_int s)
  /\ dict_get "end" ps = option_map PInt (truthy_int e)
  /\ dict_get "span" ps = option_map PInt (truthy_int n)
  /\ dict_get "period" ps = option_map PStr (truthy_str p)
  /\ dict_get "searchWidth" ps = option_map PStr (truthy_str w)
  /\ incl (dict_keys ps) ["start"; "end"; "span"; "period"; "searchWidth"].
Proof.
  intros ps. subst ps. expose_request c;
    (rewrite sent_params_fetch by decoder_shape);
    unfold set_if_int, set_if_str;
    destruct (truthy_int s), (truthy_int e), (truthy_int n), (truthy_str p), (truthy_str w);
    repeat split; intros x Hx; simpl in Hx; simpl; tauto.
Qed.

(** An argument with a default value is sent as the caller gives it, with
    no truthiness test: the empty string and [False] are sent too. *)
Theorem defaulted_arguments_sent_verbatim (c : Channel) lib self remote :
  (forall coins w,
     sent_params remote (method_on c lib self (GetCurrentPrices coins (Some w))) =
     [("searchWidth", PStr w)])
  /\ (forall t coins w,
     sent_params remote (method_on c lib self (GetHistoricalPrices t coins (Some w))) =
     [("searchWidth", PStr w)])
  /\ (forall coins f p,
     sent_params remote
       (method_on c lib self (GetPricePercentageChange coins None (Some f) (Some p))) =
     [("lookForward", PBool f); ("period", PStr p)])
  /\ (forall b,
     sent_params remote (method_on c lib self (GetStablecoins (Some b))) =
     [("includePrices", PBool b)])
  /\ (forall chain x y,
     sent_params remote (method_on c lib self (GetDexs chain (Some x) (Some y))) =
     [("excludeTotalDataChart", PBool x); ("excludeTotalDataChartBreakdown", PBool y)])
  /\ (forall slug x y,
     sent_params remote (method_on c lib self (GetDexSummary slug (Some x) (Some y))) =
     [("excludeTotalDataChart", PBool x); ("excludeTotalDataChartBreakdown", PBool y)])
  /\ (forall chain x y d,
     sent_params remote (method_on c lib self (GetOptionsDexs chain (Some x) (Some y) (Some d))) =
     [("excludeTotalDataChart", PBool x); ("excludeTotalDataChartBreakdown", PBool y);
      ("dataType", PStr d)])
  /\ (forall slug d,
     sent_params remote (method_on c lib self (GetOptionsDexSummary slug (Some d))) =
     [("dataType", PStr d)])
  /\ (forall chain x y d,
     sent_params remote (method_on c lib self (GetFees chain (Some x) (Some y) (Some d))) =
     [("excludeTotalDataChart", PBool x); ("excludeTotalDataChartBreakdown", PBool y);
      ("dataType", PStr d)])
  /\ (forall slug d,
     sent_params remote (method_on c lib self (GetFeeSummary slug (Some d))) =
     [("dataType", PStr d)]).
Proof.
  repeat match goal with |- _ /\ _ => split end; intros; expose_request c; default_sent.
Qed.

(** An optional string given as the empty string is dropped by the
    truthiness test: the method is the one the caller gets by leaving the
    argument out, so an empty chain asks for all chains. *)
Theorem empty_string_is_omitted (c : Channel) lib self :
  (forall coins s e n w,
     method_on c lib self (GetPriceChart coins s e n (Some "") w) =
     method_on c lib self (GetPriceChart coins s e n None w))
  /\ (forall coins s e n p,
     method_on c lib self (GetPriceChart coins s e n p (Some "")) =
     method_on c lib self (GetPriceChart coins s e n p None))
  /\ (forall coins,
     method_on c lib self (GetBatchHistoricalPrices coins (Some "")) =
     method_on c lib self (GetBatchHistoricalPrices coins None))
  /\ method_on c lib self (GetHistoricalChainTvl (Some "")) =
     method_on c lib self (GetHistoricalChainTvl None)
  /\ (forall s,
     method_on c lib self (GetStablecoinCharts (Some "") s) =
     method_on c lib self (GetStablecoinCharts None s))
  /\ (forall x y,
     method_on c lib self (GetDexs (Some "") x y) = method_on c lib self (GetDexs None x y))
  /\ (forall x y d,
     method_on c lib self (GetOptionsDexs (Some "") x y d) =
     method_on c lib self (GetOptionsDexs None x y d))
  /\ (forall x y d,
     method_on c lib self (GetFees (Some "") x y d) = method_on c lib self (GetFees None x y d)).
Proof.
  repeat match goal with |- _ /\ _ => split end; intros; destruct c; reflexivity.
Qed.

(** ** Path segments, continued *)

Lemma split_on_plain sep a :
  contains_char sep a = false -> split_on sep a = [a].
Proof.
  induction a as [| ch a IH]; simpl; [reflexivity |].
  intros H. apply orb_false_iff in H as [Hch Ha].
  rewrite Ascii.eqb_sym, Hch. now rewrite (IH Ha).
Qed.

Lemma split_on_app sep a rest :
  contains_char sep a = false ->
  split_on sep (a ++ String sep rest) = a :: split_on sep rest.
Proof.
  induction a as [| ch a IH]; simpl.
  - intros _. now rewrite Ascii.eqb_refl.
  - intros H. apply orb_false_iff in H as [Hch Ha].
    rewrite Ascii.eqb_sym, Hch. now rewrite (IH Ha).
Qed.

Lemma split_join coins :
  coins <> [] ->
  Forall (fun s => contains_char comma s = false) coins ->
  split_on comma (join "," coins) = coins.
Proof.
  intros Hne Hall. induction Hall as [| a rest Ha Hrest IH]; [congruence |].
  destruct rest as [| b rest].
  - simpl. now apply split_on_plain.
  - change (join "," (a :: b :: rest)) with (a ++ String comma (join "," (b :: rest))).
    rewrite split_on_app by assumption. f_equal. apply IH. discriminate.
Qed.

(** When no identifier contains a comma, splitting the path segment of a
    price-family request at the commas gives back the caller's list: the
    segment loses nothing and adds nothing. *)
Theorem coins_segment_round_trip (c : Channel) lib self remote coins :
  coins <> [] ->
  Forall (fun s => contains_char comma s = false) coins ->
  exists segment,
    split_on comma segment = coins
    /\ (forall w,
          sent_urls remote (method_on c lib self (GetCurrentPrices coins w)) =
          [COINS_URL self ++ "/prices/current/" ++ segment])
    /\ (forall t w,
          sent_urls remote (method_on c lib self (GetHistoricalPrices t coins w)) =
          [COINS_URL self ++ "/prices/historical/" ++ str_of_int t ++ "/" ++ segment])
    /\ (forall s e n p w,
          sent_urls remote (method_on c lib self (GetPriceChart coins s e n p w)) =
          [COINS_URL self ++ "/chart/" ++ segment])
    /\ (forall t f p,
          sent_urls remote (method_on c lib self (GetPricePercentageChange coins t f p)) =
          [COINS_URL self ++ "/percentage/" ++ segment])
    /\ sent_urls remote (method_on c lib self (GetFirstPrices coins)) =
         [COINS_URL self ++ "/prices/first/" ++ segment].
Proof.
  intros Hne Hall. exists (join "," coins).
  split; [now apply split_join |].
  repeat match goal with |- _ /\ _ => split end; intros; expose_request c; one_url.
Qed.

Lemma coins_segment_round_trip_witness :
  let coins := ["ethereum:0xabc"; "coingecko:bitcoin"] in
  let remote := Sample.always (Responded (Sample.ok (JObj [("coins", JObj [])]))) in
  coins <> []
  /\ Forall (fun s => contains_char comma s = false) coins
  /\ exists segment,
       split_on comma segment = coins
       /\ (forall w,
             sent_urls remote (method_on client Sample.lib __init__ (GetCurrentPrices coins w)) =
             [COINS_URL __init__ ++ "/prices/current/" ++ segment]).
Proof.
  intros coins remote.
  assert (Hne : coins <> []) by discriminate.
  assert (Hall : Forall (fun s => contains_char comma s = false) coins).
  { repeat constructor. }
  split; [exact Hne |]. split; [exact Hall |].
  destruct (@coins_segment_round_trip client Sample.lib __init__ remote coins Hne Hall)
    as (segment & Hsplit & Hcurrent & _).
  exists segment. split; assumption.
Defined.

Lemma string_app_assoc (a b d : string) : (a ++ b) ++ d = a ++ (b ++ d).
Proof.
  induction a as [| ch a IH]; simpl; congruence.
Qed.

(** Nothing is escaped: an identifier that contains a comma gives the very
    request of the two identifiers around the comma. *)
Theorem comma_in_identifier_splits_it (c : Channel) lib self a b rest :
  (forall w,
     method_on c lib self (GetCurrentPrices ((a ++ "," ++ b) :: rest) w) =
     method_on c lib self (GetCurrentPrices (a :: b :: rest) w))
  /\ method_on c lib self (GetFirstPrices ((a ++ "," ++ b) :: rest)) =
     method_on c lib self (GetFirstPrices (a :: b :: rest)).
Proof.
  assert (E : join "," ((a ++ "," ++ b) :: rest) = join "," (a :: b :: rest)).
  { destruct rest as [| r rest]; simpl.
    - reflexivity.
    - now rewrite string_app_assoc. }
  split; intros; expose_request c; now rewrite E.
Qed.

(** ** The chain of [get_block] *)

(** The blocking [get_block] sees the chain name only through
    [chain.lower()]: two spellings with the same lower-case form give the
    same method, whose path carries that form; for ASCII names this is the
    name with its capitals lowered. *)
Theorem get_block_ignores_case lib self chain chain' timestamp :
  str_lower lib chain = str_lower lib chain' ->
  get_block lib self chain timestamp = get_block lib self chain' timestamp
  /\ (forall remote,
        sent_urls remote (get_block lib self chain timestamp) =
        [COINS_URL self ++ "/block/" ++ str_lower lib chain' ++ "/" ++ str_of_int timestamp])
  /\ (is_ascii chain = true ->
      str_lower lib chain = lower chain
      /\ get_block lib self (lower chain) timestamp = get_block lib self chain timestamp).
Proof.
  intros Hsame. split; [| split].
  - unfold get_block. now rewrite Hsame.
  - intros remote. unfold get_block, _request.
    rewrite sent_urls_fetch by decoder_shape. now rewrite Hsame.
  - intros Hascii.
    assert (Hlow : is_ascii (lower chain) = true).
    { clear Hsame. induction chain as [| ch chain IH]; [reflexivity |].
      cbn [is_ascii lower] in *. apply andb_true_iff in Hascii as [Hch Hrest].
      rewrite (IH Hrest), andb_true_r.
      clear IH Hrest. destruct ch as [[] [] [] [] [] [] [] []]; try reflexivity;
        vm_compute in Hch; discriminate. }
    assert (E : str_lower lib chain = lower chain).
    { unfold str_lower. now rewrite Hascii. }
    split; [exact E |].
    unfold get_block. rewrite E. unfold str_lower. now rewrite Hlow, lower_idempotent.
Qed.

Lemma get_block_ignores_case_witness :
  str_lower Sample.lib "Ethereum" = str_lower Sample.lib "ETHEREUM"
  /\ get_block Sample.lib __init__ "Ethereum" 1700000000 =
     get_block Sample.lib __init__ "ETHEREUM" 1700000000.
Proof.
  split; [reflexivity |].
  exact (proj1 (@get_block_ignores_case Sample.lib __init__ "Ethereum" "ETHEREUM"
                  1700000000 eq_refl)).
Defined.

Lemma get_block_requests_differ_witness :
  lower "Ethereum" <> "Ethereum"
  /\ map snd (trace Sample.block_service
                (get_block Sample.lib __init__ "Ethereum" 1700000000)) <>
     map snd (trace Sample.block_service
                (get_block_async Sample.lib __init__ "Ethereum" 1700000000)).
Proof.
  assert (H : lower "Ethereum" <> "Ethereum") by discriminate.
  split; [exact H |].
  exact (@get_block_requests_differ Sample.lib __init__ Sample.block_service "Ethereum"
           1700000000 H).
Defined.

Lemma forms_agree_witness :
  let op := GetBlock "ethereum" 1700000000 in
  same_remote Sample.block_service
  /\ (forall c t, op = GetBlock c t -> str_lower Sample.lib c = c)
  /\ run Sample.block_service (blocking Sample.lib __init__ op) =
     run Sample.block_service (non_blocking Sample.lib __init__ op).
Proof.
  intros op.
  assert (Hsame : same_remote Sample.block_service) by (intro; reflexivity).
  assert (Hlower : forall c t, op = GetBlock c t -> str_lower Sample.lib c = c).
  { intros c t H. injection H as <- _. reflexivity. }
  split; [exact Hsame |]. split; [exact Hlower |].
  exact (proj2 (@forms_agree Sample.lib __init__ Sample.block_service op Hsame Hlower)).
Defined.

(** ** The [coins] parameter of the batch operation *)

Lemma plain_char_no_quote ch : plain_char ch = true -> Ascii.eqb quote1 ch = false.
Proof.
  destruct ch as [[] [] [] [] [] [] [] []]; intros H; try reflexivity;
    vm_compute in H; discriminate.
Qed.

Lemma plain_char_repr ch : plain_char ch = true -> repr_char quote1 ch = String ch "".
Proof.
  destruct ch as [[] [] [] [] [] [] [] []]; intros H; try reflexivity;
    vm_compute in H; discriminate.
Qed.

Lemma plain_no_quote s : plain s = true -> contains_char quote1 s = false.
Proof.
  induction s as [| ch s IH]; [reflexivity |].
  cbn [plain contains_char]. intros H. apply andb_true_iff in H as [Hch Hs].
  now rewrite (plain_char_no_quote _ Hch), (IH Hs).
Qed.

Lemma plain_repr_chars s : plain s = true -> repr_chars quote1 s = s.
Proof.
  induction s as [| ch s IH]; [reflexivity |].
  cbn [plain repr_chars]. intros H. apply andb_true_iff in H as [Hch Hs].
  now rewrite (plain_char_repr _ Hch), (IH Hs).
Qed.

Lemma repr_str_plain s : plain s = true -> repr_str s = "'" ++ s ++ "'".
Proof.
  intros H. unfold repr_str. rewrite (plain_no_quote _ H). simpl.
  now rewrite (plain_repr_chars _ H).
Qed.

(** The batch operation sends the dictionary of coins as Python prints it:
    braces, each key between single quotes and unchanged when it is made of
    printable ASCII without quote or backslash, a colon, and the timestamps
    in brackets, all separated by a comma and a space; a search width does
    not change it. *)
Theorem batch_coins_parameter (c : Channel) lib self remote coins w :
  Forall (fun kv => plain (fst kv) = true) coins ->
  dict_get "coins"
    (sent_params remote (method_on c lib self (GetBatchHistoricalPrices coins w))) =
  Some (PStr ("{" ++ join ", "
                (map (fun kv => ("'" ++ fst kv ++ "'") ++ ": " ++
                                "[" ++ join ", " (map str_of_int (snd kv)) ++ "]")
                   coins) ++ "}")).
Proof.
  intros Hplain.
  assert (E : str_coins coins =
              "{" ++ join ", "
                (map (fun kv => ("'" ++ fst kv ++ "'") ++ ": " ++
                                "[" ++ join ", " (map str_of_int (snd kv)) ++ "]")
                   coins) ++ "}").
  { unfold str_coins. do 3 f_equal. apply map_ext_in. intros kv Hkv.
    rewrite Forall_forall in Hplain. now rewrite (repr_str_plain _ (Hplain kv Hkv)). }
  expose_request c; (rewrite sent_params_fetch by decoder_shape);
    unfold set_if_str; destruct (truthy_str w); simpl; now rewrite E.
Qed.

Lemma batch_coins_parameter_witness :
  let coins := [("avax:0xb97e", [1666876743; 1666862343]); ("coingecko:bitcoin", [1])] in
  let remote := Sample.always (Responded (Sample.ok (JObj [("coins", JObj [])]))) in
  Forall (fun kv => plain (fst kv) = true) coins
  /\ dict_get "coins"
       (sent_params remote (get_batch_historical_prices Sample.lib __init__ coins None)) =
     Some (PStr "{'avax:0xb97e': [1666876743, 1666862343], 'coingecko:bitcoin': [1]}").
Proof.
  intros coins remote.
  assert (Hplain : Forall (fun kv => plain (fst kv) = true) coins).
  { repeat constructor. }
  split; [exact Hplain |].
  exact (@batch_coins_parameter client Sample.lib __init__ remote coins None Hplain).
Defined.

(** ** Unions, nullable elements and dictionaries *)

(** The three [circulatingPrev...] fields on values that are neither a map
    nor an integer: [null] decodes to [None]; a float that is a whole number
    up to 2^53 decodes to the [int], so that 0.0 and 0 give the same value; a
    float with a fractional part is rejected with one error for each member
    of the union. *)
Theorem prev_field_number_shapes lib :
  validate lib false circulating_union JNull = inl VNone
  /\ (forall n, Z.abs n <= 2 ^ 53 ->
        validate lib false circulating_union (JFloat (inject_Z n)) = inl (VInt n))
  /\ (forall x, Qden (Qred x) <> 1%positive ->
        validate lib false circulating_union (JFloat x) =
        inr [{| loc := [Key "dict[str,float]"]; etype := "dict_type" |};
             {| loc := [Key "int"]; etype := "int_from_float" |}]).
Proof.
  split; [reflexivity |]. split.
  - intros n Hn. now rewrite circulating_union_float, float_as_int_whole.
  - intros x Hx. now rewrite circulating_union_float, float_as_int_fraction.
Qed.

(** The reward tokens of a pool decode position by position: a [null]
    element stays [None] at its place, no element is dropped. *)
Theorem reward_tokens_keep_nulls lib (tokens : list (option string)) :
  field_ann models.Pool "rewardTokens" = Some (AOptional (AList (AOptional AStr)))
  /\ validate lib false (AOptional (AList (AOptional AStr)))
       (JArr (map (fun t => match t with Some s => JStr s | None => JNull end) tokens)) =
     inl (VList (map (fun t => match t with Some s => VStr s | None => VNone end) tokens)).
Proof.
  split; [reflexivity |].
  change (validate lib false (AList (AOptional AStr))
            (JArr (map (fun t => match t with Some s => JStr s | None => JNull end) tokens)) =
          inl (VList (map (fun t => match t with Some s => VStr s | None => VNone end) tokens))).
  apply validate_list_each.
  induction tokens as [| [s |] tokens IH]; simpl; constructor; auto.
Qed.

Lemma item_values_keys_map (f : JSON -> Validated) (members : list (string * JSON)) items :
  item_values (map (fun kv => (fst kv, f (snd kv))) members) = Some items ->
  map fst items = map fst members.
Proof.
  intros H. rewrite (item_values_keys _ H). rewrite map_map. reflexivity.
Qed.

(** A dictionary annotation keeps the keys of the body: the decoded dict
    has the same keys, spelled the same, in the same order.  So the price
    methods return the coins under the keys the service used. *)
Theorem coin_keys_preserved lib members coins v :
  dict_get "coins" members = Some (JObj coins) ->
  validate lib false models.CoinPrice (JObj members) = inl v ->
  exists items,
    v = VModel "CoinPrice" [("coins", VDict items)] /\ map fst items = map fst coins.
Proof.
  intros Hget. unfold models.CoinPrice. rewrite validate_model_eq.
  unfold collect_items, field_results, required.
  cbn [map fname fann fdefault item_values]. unfold field_result. rewrite Hget.
  change (validate lib false (ADict models.Coin) (JObj coins))
    with (collect_items VDict
            (map (fun kv => (fst kv, validate lib false models.Coin (snd kv))) coins)).
  unfold collect_items.
  destruct (item_values (map (fun kv => (fst kv, validate lib false models.Coin (snd kv)))
                           coins)) as [items |] eqn:E; [| discriminate].
  cbn. intros H. injection H as <-. exists items. split; [reflexivity |].
  exact (item_values_keys_map _ _ E).
Qed.

Lemma coin_keys_preserved_witness :
  let coins := [("coingecko:ethereum", JObj [("price", JFloat (5 # 2)); ("symbol", JStr "ETH")])] in
  let members := [("coins", JObj coins)] in
  let v := VModel "CoinPrice"
             [("coins", VDict [("coingecko:ethereum",
                  VModel "Coin" [("decimals", VNone); ("price", VFloat (5 # 2));
                                 ("symbol", VStr "ETH"); ("timestamp", VNone);
                                 ("confidence", VNone)])])] in
  dict_get "coins" members = Some (JObj coins)
  /\ validate Sample.lib false models.CoinPrice (JObj members) = inl v
  /\ exists items,
       v = VModel "CoinPrice" [("coins", VDict items)] /\ map fst items = map fst coins.
Proof.
  intros coins members v. split; [reflexivity |]. split; [reflexivity |].
  exact (@coin_keys_preserved Sample.lib members coins v eq_refl eq_refl).
Defined.
